(** * Remote bandwidth estimation: the congestion controller of
    [pkg/sfu/bwe/remotebwe/remote_bwe.go]

    A shallow embedding of [RemoteBWE] and of its methods, followed by the
    properties of the congestion state machine, of the capacity commit and
    of the probe lifecycle.

    Conventions of the embedding.
    - [int64] values are integers of [Z]; the only arithmetic the file does
      on them goes through [float64], whose conversions are written out in
      [Float64].
    - A method on [*RemoteBWE] is a computation in the monad [M]: it reads
      and updates the receiver and emits the calls it makes on the logger
      and on the listener, in order.
    - The read/write lock serialises the methods; the embedding is the
      sequential behaviour of one method call at a time.
    - The clock is read through [mono.Now()] and [time.Since]; a method
      receives the readings it will observe as a [Clock]. *)

From Stdlib Require Import ZArith List String Bool Lia SpecFloat.
Import ListNotations.

Local Open Scope string_scope.
Local Open Scope list_scope.
Local Open Scope Z_scope.

Declare Scope bwe_scope.
Delimit Scope bwe_scope with bwe.
Local Open Scope bwe_scope.

(** ** float64 *)

(** IEEE 754 binary64 through the Standard Library's executable
    specification of floating point numbers. *)
Module Float64.

Definition prec : Z := 53.
Definition emax : Z := 1024.

Definition float64 : Type := spec_float.

Definition mul : float64 -> float64 -> float64 := SFmul prec emax.
Definition sub : float64 -> float64 -> float64 := SFsub prec emax.
Definition div : float64 -> float64 -> float64 := SFdiv prec emax.
Definition ltb : float64 -> float64 -> bool := SFltb.

(** [float64(n)] for an integer [n]: rounded to nearest, ties to even. *)
Definition of_int (n : Z) : float64 := binary_normalize prec emax n 0 false.

(** The decimal literal [n/d], as the compiler rounds it. *)
Definition of_ratio (n d : Z) : float64 := div (of_int n) (of_int d).

Definition min_int64 : Z := - 2 ^ 63.
Definition max_int64 : Z := 2 ^ 63 - 1.

(** The integer part of a finite number, rounded toward zero. *)
Definition truncate (f : float64) : option Z :=
  match f with
  | S754_zero _ => Some 0
  | S754_finite s m e =>
      let a := match e with
               | Zneg p => Z.pos m / 2 ^ Z.pos p
               | _ => Z.pos m * 2 ^ e
               end in
      Some (if s then - a else a)
  | S754_infinity _ | S754_nan => None
  end.

(** [int64(f)]: truncation toward zero. When the value does not fit, Go
    leaves the result to the implementation; amd64 yields the minimum
    [int64], which is what is written here. *)
Definition to_int64 (f : float64) : Z :=
  match truncate f with
  | Some z => if (min_int64 <=? z) && (z <=? max_int64) then z else min_int64
  | None => min_int64
  end.

(** Finite and not negative. *)
Definition nonneg (f : float64) : bool :=
  match f with
  | S754_zero _ | S754_finite false _ _ => true
  | _ => false
  end.

(** The integer [z] is greater than the number [f], compared exactly. *)
Definition exceeds (z : Z) (f : float64) : Prop :=
  match f with
  | S754_zero _ => 0 < z
  | S754_finite s m e =>
      let v := if s then Z.neg m else Z.pos m in
      match e with
      | Zneg p => v < z * 2 ^ Z.pos p
      | _ => v * 2 ^ e < z
      end
  | S754_infinity s => s = true
  | S754_nan => False
  end.

End Float64.

Abbreviation float64 := Float64.float64.

(** ** Enumerations *)

(** Modelled from the spec: [bwe.CongestionState], declared in package
    [bwe]; the three values are the ones the controller names. *)
Inductive CongestionState : Type :=
| CongestionStateNone
| CongestionStateCongested
| CongestionStateCongestedHangover.

(** Modelled from the spec: [bwe.ProbeSignal], declared in package
    [bwe]. *)
Inductive ProbeSignal : Type :=
| ProbeSignalInconclusive
| ProbeSignalCongesting
| ProbeSignalClearing.

(** Modelled from the spec: [channelTrend], declared next to the channel
    observer; congesting, neutral and the improving case. *)
Inductive channelTrend : Type :=
| channelTrendNeutral
| channelTrendClearing
| channelTrendCongesting.

(** Modelled from the spec: [channelCongestionReason], declared next to
    the channel observer; loss, or a falling bandwidth estimate. *)
Inductive channelCongestionReason : Type :=
| channelCongestionReasonEstimate
| channelCongestionReasonLoss.

Definition CongestionState_eqb (a b : CongestionState) : bool :=
  match a, b with
  | CongestionStateNone, CongestionStateNone
  | CongestionStateCongested, CongestionStateCongested
  | CongestionStateCongestedHangover, CongestionStateCongestedHangover => true
  | _, _ => false
  end.

Definition channelTrend_eqb (a b : channelTrend) : bool :=
  match a, b with
  | channelTrendNeutral, channelTrendNeutral
  | channelTrendClearing, channelTrendClearing
  | channelTrendCongesting, channelTrendCongesting => true
  | _, _ => false
  end.

(** ** Time *)

(** [time.Duration] and the monotonic readings of [time.Time], both in
    nanoseconds. *)
Definition Duration : Type := Z.
Definition Time : Type := Z.

Definition Millisecond : Duration := 1000000.
Definition Second : Duration := 1000 * Millisecond.

Definition minDuration : Duration := - 2 ^ 63.
Definition maxDuration : Duration := 2 ^ 63 - 1.

(** What one method call reads from the clock. *)
Record Clock : Type := {
  time_Now : Time;   (* the reading [time.Since] takes *)
  mono_Now : Time    (* the value of [mono.Now()] *)
}.

(** [time.Since(t)]: the elapsed duration, saturating at the ends of
    [Duration]. *)
Definition time_Since (clk : Clock) (t : Time) : Duration :=
  Z.max minDuration (Z.min maxDuration (time_Now clk - t)).

(** ** The channel observer *)

(** [channelObserverParams], with the configuration type left open. *)
Record channelObserverParams (ChannelObserverConfig : Type) : Type := {
  Name : string;
  Config : ChannelObserverConfig
}.
Arguments Name {_} _.
Arguments Config {_} _.

(** The channel observer is declared in a sibling file of the package; the
    controller uses it through these operations only. An operation that
    updates the observer in place returns the updated observer. *)
Class ChannelObserverOps (ChannelObserverConfig CO : Type) : Type := {
  defaultChannelObserverConfigProbe : ChannelObserverConfig;
  defaultChannelObserverConfigNonProbe : ChannelObserverConfig;
  newChannelObserver : channelObserverParams ChannelObserverConfig -> CO;
  SeedEstimate : Z -> CO -> CO;
  AddEstimate : Z -> CO -> CO;
  AddNack : Z -> Z -> CO -> CO;
  GetTrend : CO -> channelTrend * channelCongestionReason;
  GetNackRatio : CO -> float64;
  HasEnoughEstimateSamples : CO -> bool;
  GetHighestEstimate : CO -> Z
}.

(** ** Calls on the outside world *)

Inductive LogLevel : Type := Debugw | Infow.

(** The handle of a registered [bwe.BWEListener]. *)
Definition BWEListener : Type := nat.

(** A call on the logger (its message; the key/value pairs are left out) or
    on the listener. *)
Inductive Event : Type :=
| Log (level : LogLevel) (msg : string)
| OnCongestionStateChange (l : BWEListener) (state : CongestionState)
    (committedChannelCapacity : Z).

Definition msg_congesting : string := "remote bwe, channel congesting".
Definition msg_commit_skipped : string :=
  "remote bwe: channel congestion detected, skipping above commit threshold channel capacity update".
Definition msg_commit_applied : string :=
  "remote bwe: channel congestion detected, applying channel capacity update".
Definition msg_state_change : string := "remote bwe: congestion state change".
Definition msg_probe_starting : string := "remote bwe: starting probe".
Definition msg_probe_done : string := "remote bwe: probe done".

(** Whether an event is one of the two log lines that
    [estimateAvailableChannelCapacity] writes, one on each of its paths. *)
Definition is_commit_attempt (e : Event) : bool :=
  match e with
  | Log Debugw m => String.eqb m msg_commit_skipped
  | Log Infow m => String.eqb m msg_commit_applied
  | OnCongestionStateChange _ _ _ => false
  end.

Definition is_notification (e : Event) : bool :=
  match e with
  | OnCongestionStateChange _ _ _ => true
  | Log _ _ => false
  end.

Definition commit_attempts (evs : list Event) : nat :=
  List.length (List.filter is_commit_attempt evs).

Definition notifications (evs : list Event) : list Event :=
  List.filter is_notification evs.

(** The events of a run that are writes of the accepted-commit log line. *)
Definition is_commit_applied (e : Event) : bool :=
  match e with
  | Log Infow m => String.eqb m msg_commit_applied
  | _ => false
  end.

Definition commit_applied (evs : list Event) : bool :=
  List.existsb is_commit_applied evs.

Definition drop_notifications (evs : list Event) : list Event :=
  List.filter (fun e => negb (is_notification e)) evs.

(** ** Configuration and receiver *)

Section RemoteBWE.

Context {ChannelObserverConfig CO : Type}.
Context `{ops : ChannelObserverOps ChannelObserverConfig CO}.

Record RemoteBWEConfig : Type := {
  NackRatioAttenuator : float64;
  ExpectedUsageThreshold : float64;
  ChannelObserverProbe : ChannelObserverConfig;
  ChannelObserverNonProbe : ChannelObserverConfig;
  CongestedMinDuration : Duration;
  PeriodicCheckInterval : Duration;
  PeriodicCheckIntervalCongested : Duration
}.

Definition DefaultRemoteBWEConfig : RemoteBWEConfig := {|
  NackRatioAttenuator := Float64.of_ratio 4 10;
  ExpectedUsageThreshold := Float64.of_ratio 95 100;
  ChannelObserverProbe := defaultChannelObserverConfigProbe;
  ChannelObserverNonProbe := defaultChannelObserverConfigNonProbe;
  CongestedMinDuration := 3 * Second;
  PeriodicCheckInterval := 2 * Second;
  PeriodicCheckIntervalCongested := 200 * Millisecond
|}.

(** [RemoteBWEParams]; the logger is the event trace of [M]. *)
Record RemoteBWEParams : Type := {
  params_Config : RemoteBWEConfig
}.

(** [RemoteBWE], without the embedded [bwe.NullBWE] and the lock. A nil
    [bweListener] is [None]. *)
Record RemoteBWE : Type := {
  params : RemoteBWEParams;
  lastReceivedEstimate : Z;
  lastExpectedBandwidthUsage : Z;
  committedChannelCapacity : Z;
  isInProbe : bool;
  channelObserver : CO;
  congestionState : CongestionState;
  congestionStateSwitchedAt : Time;
  bweListener : option BWEListener
}.

(** Assignments to one field. *)
Definition set_lastReceivedEstimate (v : Z) (r : RemoteBWE) : RemoteBWE :=
  {| params := params r; lastReceivedEstimate := v;
     lastExpectedBandwidthUsage := lastExpectedBandwidthUsage r;
     committedChannelCapacity := committedChannelCapacity r;
     isInProbe := isInProbe r; channelObserver := channelObserver r;
     congestionState := congestionState r;
     congestionStateSwitchedAt := congestionStateSwitchedAt r;
     bweListener := bweListener r |}.

Definition set_lastExpectedBandwidthUsage (v : Z) (r : RemoteBWE)
  : RemoteBWE :=
  {| params := params r; lastReceivedEstimate := lastReceivedEstimate r;
     lastExpectedBandwidthUsage := v;
     committedChannelCapacity := committedChannelCapacity r;
     isInProbe := isInProbe r; channelObserver := channelObserver r;
     congestionState := congestionState r;
     congestionStateSwitchedAt := congestionStateSwitchedAt r;
     bweListener := bweListener r |}.

Definition set_committedChannelCapacity (v : Z) (r : RemoteBWE)
  : RemoteBWE :=
  {| params := params r; lastReceivedEstimate := lastReceivedEstimate r;
     lastExpectedBandwidthUsage := lastExpectedBandwidthUsage r;
     committedChannelCapacity := v;
     isInProbe := isInProbe r; channelObserver := channelObserver r;
     congestionState := congestionState r;
     congestionStateSwitchedAt := congestionStateSwitchedAt r;
     bweListener := bweListener r |}.

Definition set_isInProbe (v : bool) (r : RemoteBWE) : RemoteBWE :=
  {| params := params r; lastReceivedEstimate := lastReceivedEstimate r;
     lastExpectedBandwidthUsage := lastExpectedBandwidthUsage r;
     committedChannelCapacity := committedChannelCapacity r;
     isInProbe := v; channelObserver := channelObserver r;
     congestionState := congestionState r;
     congestionStateSwitchedAt := congestionStateSwitchedAt r;
     bweListener := bweListener r |}.

Definition set_channelObserver (v : CO) (r : RemoteBWE) : RemoteBWE :=
  {| params := params r; lastReceivedEstimate := lastReceivedEstimate r;
     lastExpectedBandwidthUsage := lastExpectedBandwidthUsage r;
     committedChannelCapacity := committedChannelCapacity r;
     isInProbe := isInProbe r; channelObserver := v;
     congestionState := congestionState r;
     congestionStateSwitchedAt := congestionStateSwitchedAt r;
     bweListener := bweListener r |}.

Definition set_congestionState (v : CongestionState) (r : RemoteBWE)
  : RemoteBWE :=
  {| params := params r; lastReceivedEstimate := lastReceivedEstimate r;
     lastExpectedBandwidthUsage := lastExpectedBandwidthUsage r;
     committedChannelCapacity := committedChannelCapacity r;
     isInProbe := isInProbe r; channelObserver := channelObserver r;
     congestionState := v;
     congestionStateSwitchedAt := congestionStateSwitchedAt r;
     bweListener := bweListener r |}.

Definition set_congestionStateSwitchedAt (v : Time) (r : RemoteBWE)
  : RemoteBWE :=
  {| params := params r; lastReceivedEstimate := lastReceivedEstimate r;
     lastExpectedBandwidthUsage := lastExpectedBandwidthUsage r;
     committedChannelCapacity := committedChannelCapacity r;
     isInProbe := isInProbe r; channelObserver := channelObserver r;
     congestionState := congestionState r;
     congestionStateSwitchedAt := v;
     bweListener := bweListener r |}.

Definition set_bweListener (v : option BWEListener) (r : RemoteBWE)
  : RemoteBWE :=
  {| params := params r; lastReceivedEstimate := lastReceivedEstimate r;
     lastExpectedBandwidthUsage := lastExpectedBandwidthUsage r;
     committedChannelCapacity := committedChannelCapacity r;
     isInProbe := isInProbe r; channelObserver := channelObserver r;
     congestionState := congestionState r;
     congestionStateSwitchedAt := congestionStateSwitchedAt r;
     bweListener := v |}.

(** ** The monad of a method call *)

(** A computation on the receiver: its result, the receiver afterwards
    and the events emitted, oldest first. *)
Definition M (A : Type) : Type := RemoteBWE -> A * RemoteBWE * list Event.

Definition ret {A} (a : A) : M A := fun r => (a, r, []).

Definition bind {A B} (m : M A) (k : A -> M B) : M B :=
  fun r =>
    let '(a, r1, e1) := m r in
    let '(b, r2, e2) := k a r1 in
    (b, r2, e1 ++ e2).

Definition get : M RemoteBWE := fun r => (r, r, []).
Definition modify (f : RemoteBWE -> RemoteBWE) : M unit :=
  fun r => (tt, f r, []).
Definition emit (e : Event) : M unit := fun r => (tt, r, [e]).

Definition when (b : bool) (m : M unit) : M unit :=
  if b then m else ret tt.

(** [b || m()]: the right operand runs only when [b] is false. *)
Definition orElse (b : bool) (m : M bool) : M bool :=
  if b then ret true else m.

End RemoteBWE.

Arguments RemoteBWEConfig : clear implicits.
Arguments RemoteBWEParams : clear implicits.
Arguments RemoteBWE : clear implicits.

Notation "x <- m ;; k" := (bind m (fun x => k))
  (at level 61, m at next level, right associativity) : bwe_scope.
Notation "m ;; k" := (bind m (fun _ => k))
  (at level 61, right associativity) : bwe_scope.

(** Modelled from the spec: [ccutils.ProbeClusterInfo], declared in package
    [ccutils]; the controller reads the goal's expected usage only. *)
Record ProbeClusterGoal : Type := { ExpectedUsageBps : Z }.
Record ProbeClusterInfo : Type := { Goal : ProbeClusterGoal }.

(** ** The methods of [RemoteBWE] *)

Section Methods.

Context {ChannelObserverConfig CO : Type}.
Context `{ops : ChannelObserverOps ChannelObserverConfig CO}.

Local Abbreviation Receiver := (RemoteBWE ChannelObserverConfig CO).
Local Abbreviation Action := (@M ChannelObserverConfig CO).

Definition config (r : Receiver) : RemoteBWEConfig ChannelObserverConfig :=
  params_Config (params r).

Definition SetBWEListener (l : option BWEListener) : Action unit :=
  modify (set_bweListener l).

Definition getBWEListener : Action (option BWEListener) :=
  r <- get ;; ret (bweListener r).

(** The observer [r.newChannelObserver()] installs, by the probe flag. *)
Definition probeObserver (r : Receiver) : CO :=
  SeedEstimate (committedChannelCapacity r)
    (newChannelObserver
       {| Name := "probe"; Config := ChannelObserverProbe (config r) |}).

Definition nonProbeObserver (r : Receiver) : CO :=
  newChannelObserver
    {| Name := "non-probe"; Config := ChannelObserverNonProbe (config r) |}.

(** The method [newChannelObserver] of the receiver (the package function
    of the same name is the class member). *)
Definition r_newChannelObserver : Action unit :=
  r <- get ;;
  if isInProbe r then
    modify (set_channelObserver
              (newChannelObserver
                 {| Name := "probe";
                    Config := ChannelObserverProbe (config r) |})) ;;
    r1 <- get ;;
    modify (set_channelObserver
              (SeedEstimate (committedChannelCapacity r1)
                 (channelObserver r1)))
  else
    modify (set_channelObserver
              (newChannelObserver
                 {| Name := "non-probe";
                    Config := ChannelObserverNonProbe (config r) |})).

Definition Reset (clk : Clock) : Action unit :=
  modify (set_lastReceivedEstimate 0) ;;
  modify (set_lastExpectedBandwidthUsage 0) ;;
  modify (set_committedChannelCapacity 100000000) ;;
  modify (set_isInProbe false) ;;
  r_newChannelObserver ;;
  modify (set_congestionState CongestionStateNone) ;;
  modify (set_congestionStateSwitchedAt (mono_Now clk)).

(** The value [&RemoteBWE{params: params}]. Its observer pointer is nil;
    [nilObserver] stands for it, and [Reset] replaces it before anything
    reads it. *)
Definition zeroRemoteBWE (nilObserver : CO)
    (p : RemoteBWEParams ChannelObserverConfig) : Receiver :=
  {| params := p;
     lastReceivedEstimate := 0;
     lastExpectedBandwidthUsage := 0;
     committedChannelCapacity := 0;
     isInProbe := false;
     channelObserver := nilObserver;
     congestionState := CongestionStateNone;
     congestionStateSwitchedAt := 0;
     bweListener := None |}.

Definition NewRemoteBWE (nilObserver : CO) (clk : Clock)
    (p : RemoteBWEParams ChannelObserverConfig) : Receiver :=
  snd (fst (Reset clk (zeroRemoteBWE nilObserver p))).

Definition r_CongestionState : Action CongestionState :=
  r <- get ;; ret (congestionState r).

(** The candidate of the commit before the clamp. The float64 expression
    is rounded after each operation. *)
Definition rawEstimateToCommit (reason : channelCongestionReason)
    (r : Receiver) : Z :=
  match reason with
  | channelCongestionReasonLoss =>
      Float64.to_int64
        (Float64.mul
           (Float64.of_int (lastExpectedBandwidthUsage r))
           (Float64.sub (Float64.of_int 1)
              (Float64.mul (NackRatioAttenuator (config r))
                 (GetNackRatio (channelObserver r)))))
  | _ => lastReceivedEstimate r
  end.

(** [estimateToCommit] once clamped to the last received estimate. *)
Definition estimateToCommit (reason : channelCongestionReason)
    (r : Receiver) : Z :=
  let e := rawEstimateToCommit reason r in
  if e >? lastReceivedEstimate r then lastReceivedEstimate r else e.

Definition commitThreshold (r : Receiver) : Z :=
  Float64.to_int64
    (Float64.mul (ExpectedUsageThreshold (config r))
       (Float64.of_int (lastExpectedBandwidthUsage r))).

Definition estimateAvailableChannelCapacity
    (reason : channelCongestionReason) : Action bool :=
  r <- get ;;
  let estimateToCommit := estimateToCommit reason r in
  let commitThreshold := commitThreshold r in
  if estimateToCommit >? commitThreshold then
    emit (Log Debugw msg_commit_skipped) ;;
    ret false
  else
    emit (Log Infow msg_commit_applied) ;;
    modify (set_committedChannelCapacity estimateToCommit) ;;
    (* reset to get new set of samples for next trend *)
    r_newChannelObserver ;;
    ret true.

Definition updateCongestionState (clk : Clock) (state : CongestionState)
    (reason : channelCongestionReason) : Action unit :=
  emit (Log Infow msg_state_change) ;;
  modify (set_congestionState state) ;;
  modify (set_congestionStateSwitchedAt (mono_Now clk)).

(** The [switch] of the state machine: the values of [newState] and
    [update] when it is left. *)
Definition transition (clk : Clock) (r : Receiver) (trend : channelTrend)
    (reason : channelCongestionReason) : Action (CongestionState * bool) :=
  let newState := congestionState r in
  let update := false in
  match congestionState r with
  | CongestionStateNone =>
      if channelTrend_eqb trend channelTrendCongesting then
        c <- orElse (isInProbe r) (estimateAvailableChannelCapacity reason) ;;
        (* when in probe, if congested, stays there will probe is done,
           the estimate stays at pre-probe level *)
        ret (if c then CongestionStateCongested else newState, update)
      else ret (newState, update)
  | CongestionStateCongested =>
      if channelTrend_eqb trend channelTrendCongesting then
        c <- estimateAvailableChannelCapacity reason ;;
        (* update state as this needs to reset switch time to wait for
           congestion min duration again *)
        ret (newState, if c then true else update)
      else ret (CongestionStateCongestedHangover, update)
  | CongestionStateCongestedHangover =>
      if channelTrend_eqb trend channelTrendCongesting then
        c <- estimateAvailableChannelCapacity reason ;;
        ret (if c then CongestionStateCongested else newState, update)
      else if time_Since clk (congestionStateSwitchedAt r)
                >=? CongestedMinDuration (config r)
      then ret (CongestionStateNone, update)
      else ret (newState, update)
  end.

Definition congestionDetectionStateMachine (clk : Clock)
  : Action (bool * CongestionState * Z) :=
  r <- get ;;
  let '(trend, reason) := GetTrend (channelObserver r) in
  when (channelTrend_eqb trend channelTrendCongesting)
    (emit (Log Debugw msg_congesting)) ;;
  nu <- transition clk r trend reason ;;
  let '(newState, update) := nu in
  r1 <- get ;;
  shouldNotify <-
    (if negb (CongestionState_eqb newState (congestionState r1)) || update
     then updateCongestionState clk newState reason ;; ret true
     else ret false) ;;
  r2 <- get ;;
  ret (shouldNotify, congestionState r2, committedChannelCapacity r2).

Definition HandleREMB (clk : Clock)
    (receivedEstimate expectedBandwidthUsage : Z)
    (sentPackets repeatedNacks : Z) : Action unit :=
  modify (set_lastReceivedEstimate receivedEstimate) ;;
  modify (set_lastExpectedBandwidthUsage expectedBandwidthUsage) ;;
  r <- get ;;
  (* in probe, freeze channel observer state if probe causes congestion
     till the probe is done *)
  if isInProbe r
     && negb (CongestionState_eqb (congestionState r) CongestionStateNone)
  then ret tt
  else
    modify (fun r => set_channelObserver
              (AddEstimate (lastReceivedEstimate r) (channelObserver r)) r) ;;
    modify (fun r => set_channelObserver
              (AddNack sentPackets repeatedNacks (channelObserver r)) r) ;;
    res <- congestionDetectionStateMachine clk ;;
    let '(shouldNotify, state, committedChannelCapacity) := res in
    if shouldNotify then
      l <- getBWEListener ;;
      match l with
      | Some bweListener =>
          emit (OnCongestionStateChange bweListener state
                  committedChannelCapacity)
      | None => ret tt
      end
    else ret tt.

Definition ProbeClusterStarting (pci : ProbeClusterInfo) : Action unit :=
  modify (set_lastExpectedBandwidthUsage (ExpectedUsageBps (Goal pci))) ;;
  emit (Log Debugw msg_probe_starting) ;;
  modify (set_isInProbe true) ;;
  r_newChannelObserver.

Definition ProbeClusterDone (_pci : ProbeClusterInfo)
  : Action (ProbeSignal * Z) :=
  (* switch to a non-probe channel observer on probe end,
     reset congestion state to get a fresh trend *)
  r <- get ;;
  let pco := channelObserver r in
  let probeCongestionState := congestionState r in
  modify (set_isInProbe false) ;;
  modify (set_congestionState CongestionStateNone) ;;
  r_newChannelObserver ;;
  emit (Log Debugw msg_probe_done) ;;
  r1 <- get ;;
  if negb (CongestionState_eqb probeCongestionState CongestionStateNone)
  then ret (ProbeSignalCongesting, committedChannelCapacity r1)
  else
    let '(trend, _) := GetTrend pco in
    if negb (HasEnoughEstimateSamples pco)
       || channelTrend_eqb trend channelTrendNeutral
    then ret (ProbeSignalInconclusive, committedChannelCapacity r1)
    else
      let highestEstimate := GetHighestEstimate pco in
      when (highestEstimate >? committedChannelCapacity r1)
        (modify (set_committedChannelCapacity highestEstimate)) ;;
      r2 <- get ;;
      ret (ProbeSignalClearing, committedChannelCapacity r2).

(** ** Receivers the properties are stated with *)

(** The receiver once [estimateAvailableChannelCapacity] has accepted. *)
Definition committed (reason : channelCongestionReason) (r : Receiver) : Receiver :=
  let r1 := set_committedChannelCapacity (estimateToCommit reason r) r in
  set_channelObserver
    (if isInProbe r then probeObserver r1 else nonProbeObserver r1) r1.

(** The receiver once [updateCongestionState] has run. *)
Definition switched (clk : Clock) (state : CongestionState) (r : Receiver)
  : Receiver :=
  set_congestionStateSwitchedAt (mono_Now clk)
    (set_congestionState state r).

(** The receiver once [HandleREMB] has recorded its two arguments. *)
Definition recorded (receivedEstimate expectedBandwidthUsage : Z)
    (r : Receiver) : Receiver :=
  set_lastExpectedBandwidthUsage expectedBandwidthUsage
    (set_lastReceivedEstimate receivedEstimate r).

(** The receiver once [HandleREMB] has also fed the observer. *)
Definition sampled (receivedEstimate expectedBandwidthUsage : Z)
    (sentPackets repeatedNacks : Z) (r : Receiver) : Receiver :=
  set_channelObserver
    (AddNack sentPackets repeatedNacks
       (AddEstimate receivedEstimate (channelObserver r)))
    (recorded receivedEstimate expectedBandwidthUsage r).

(** The test of the freeze at the head of [HandleREMB]. *)
Definition frozen (r : Receiver) : bool :=
  isInProbe r
  && negb (CongestionState_eqb (congestionState r) CongestionStateNone).

(** The receiver once [ProbeClusterDone] has left the probe, before it
    decides. *)
Definition probeEnded (r : Receiver) : Receiver :=
  set_channelObserver (nonProbeObserver r)
    (set_congestionState CongestionStateNone (set_isInProbe false r)).

(** Whether a run of [HandleREMB] from [r] to [r'] with events [evs] is one
    the listener is to hear of: the state differs, or it was and remains
    congested and a commit was applied. *)
Definition notify_worthy (r r' : Receiver) (evs : list Event) : bool :=
  negb (CongestionState_eqb (congestionState r') (congestionState r))
  || (CongestionState_eqb (congestionState r) CongestionStateCongested
      && commit_applied evs).

(** ** Calls made while a probe is in flight *)

(** The entry points a caller may use between the start of a probe and
    [ProbeClusterDone]; [Reset] is not one of them, it ends the probe. *)
Inductive ProbeCall : Type :=
| Feedback (clk : Clock) (receivedEstimate expectedBandwidthUsage : Z)
    (sentPackets repeatedNacks : Z)
| ProbeStarting (pci : ProbeClusterInfo)
| ListenerSet (l : option BWEListener).

Definition call (c : ProbeCall) : Action unit :=
  match c with
  | Feedback clk e u s n => HandleREMB clk e u s n
  | ProbeStarting pci => ProbeClusterStarting pci
  | ListenerSet l => SetBWEListener l
  end.

Fixpoint calls (cs : list ProbeCall) : Action unit :=
  match cs with
  | [] => ret tt
  | c :: cs' => call c ;; calls cs'
  end.

(** ** Descriptions of runs *)

(** The moves of the congestion state that the [switch] of the state
    machine has a branch for. *)
Definition allowed_transition (a b : CongestionState) : bool :=
  match a, b with
  | CongestionStateNone, CongestionStateNone
  | CongestionStateNone, CongestionStateCongested
  | CongestionStateCongested, CongestionStateCongested
  | CongestionStateCongested, CongestionStateCongestedHangover
  | CongestionStateCongestedHangover, _ => true
  | _, _ => false
  end.

(** The trend the state machine will read in [HandleREMB], once the sample
    of the call is in the observer. *)
Definition trendAfter (receivedEstimate expectedBandwidthUsage : Z)
    (sentPackets repeatedNacks : Z) (r : Receiver) : channelTrend :=
  fst (GetTrend
         (channelObserver
            (sampled receivedEstimate expectedBandwidthUsage sentPackets
               repeatedNacks r))).


(** The calls of a sequence that are feedback. *)
Definition is_feedback (c : ProbeCall) : bool :=
  match c with
  | Feedback _ _ _ _ _ => true
  | _ => false
  end.

End Methods.

(** ** A channel observer to run the controller on *)

(** Modelled from the spec: the channel observer of the sibling file, by
    its contract: an accumulator of estimate samples and of sent/repeated
    nack counts. The seed is a reference point, not a sample: it does not
    count towards the minimum and is not a recorded estimate. The trend is
    congesting by loss when the nack ratio is above the configured
    threshold; otherwise, with enough samples, it compares the newest sample
    with the reference, the seed or else the oldest sample. *)
Module WindowObserver.

Record WindowConfig : Type := {
  minSamples : nat;
  nackRatioThreshold : float64
}.

Record t : Type := {
  cfg : WindowConfig;
  name : string;
  seed : option Z;      (* the reference point of [SeedEstimate] *)
  estimates : list Z;   (* the samples of [AddEstimate], oldest first *)
  sent : Z;
  nacks : Z
}.

Definition new (p : channelObserverParams WindowConfig) : t :=
  {| cfg := Config p; name := Name p; seed := None; estimates := [];
     sent := 0; nacks := 0 |}.

(** Seeding an observer that already holds samples does nothing. *)
Definition seedEstimate (v : Z) (o : t) : t :=
  match estimates o with
  | [] =>
      {| cfg := cfg o; name := name o; seed := Some v;
         estimates := estimates o; sent := sent o; nacks := nacks o |}
  | _ :: _ => o
  end.

Definition addEstimate (v : Z) (o : t) : t :=
  {| cfg := cfg o; name := name o; seed := seed o;
     estimates := estimates o ++ [v];
     sent := sent o; nacks := nacks o |}.

Definition addNack (s n : Z) (o : t) : t :=
  {| cfg := cfg o; name := name o; seed := seed o;
     estimates := estimates o;
     sent := sent o + s; nacks := nacks o + n |}.

Definition getNackRatio (o : t) : float64 :=
  if sent o =? 0 then Float64.of_int 0
  else
    let q := Float64.div (Float64.of_int (nacks o)) (Float64.of_int (sent o)) in
    if Float64.ltb (Float64.of_int 1) q then Float64.of_int 1 else q.

Definition hasEnoughEstimateSamples (o : t) : bool :=
  (minSamples (cfg o) <=? List.length (estimates o))%nat.

Definition getHighestEstimate (o : t) : Z :=
  match estimates o with
  | [] => 0
  | e :: es => List.fold_left Z.max es e
  end.

Definition getTrend (o : t) : channelTrend * channelCongestionReason :=
  if Float64.ltb (nackRatioThreshold (cfg o)) (getNackRatio o) then
    (channelTrendCongesting, channelCongestionReasonLoss)
  else if hasEnoughEstimateSamples o then
    let oldest := match seed o with
                  | Some v => v
                  | None => List.hd 0 (estimates o)
                  end in
    let newest := List.last (estimates o) 0 in
    if newest <? oldest then
      (channelTrendCongesting, channelCongestionReasonEstimate)
    else if oldest <? newest then
      (channelTrendClearing, channelCongestionReasonEstimate)
    else (channelTrendNeutral, channelCongestionReasonEstimate)
  else (channelTrendNeutral, channelCongestionReasonEstimate).

Definition configProbe : WindowConfig :=
  {| minSamples := 3; nackRatioThreshold := Float64.of_ratio 4 100 |}.

Definition configNonProbe : WindowConfig :=
  {| minSamples := 4; nackRatioThreshold := Float64.of_ratio 8 100 |}.

#[global] Instance observer_ops : ChannelObserverOps WindowConfig t := {|
  defaultChannelObserverConfigProbe := configProbe;
  defaultChannelObserverConfigNonProbe := configNonProbe;
  newChannelObserver := new;
  SeedEstimate := seedEstimate;
  AddEstimate := addEstimate;
  AddNack := addNack;
  GetTrend := getTrend;
  GetNackRatio := getNackRatio;
  HasEnoughEstimateSamples := hasEnoughEstimateSamples;
  GetHighestEstimate := getHighestEstimate
|}.

End WindowObserver.

(** ** Receivers to run the methods on *)

Module Run.

Import WindowObserver.

Definition Receiver : Type := RemoteBWE WindowConfig t.

Definition defaultParams : RemoteBWEParams WindowConfig :=
  {| params_Config := DefaultRemoteBWEConfig |}.

Definition clock (now : Time) : Clock :=
  {| time_Now := now; mono_Now := now |}.

(** A receiver just constructed, at time 0. *)
Definition fresh : Receiver :=
  NewRemoteBWE (new {| Name := ""; Config := configNonProbe |}) (clock 0)
    defaultParams.

(** Runs a method and keeps the receiver. *)
Definition exec {A} (m : M A) (r : Receiver) : Receiver := snd (fst (m r)).

(** Feeds the estimates of [es] in order, with the same usage and packet
    counts, all at time [now]. *)
Definition feed (now : Time) (usage sentPackets repeatedNacks : Z)
    (es : list Z) (r : Receiver) : Receiver :=
  List.fold_left
    (fun r e => exec (HandleREMB (clock now) e usage sentPackets repeatedNacks) r)
    es r.

Definition goal (usage : Z) : ProbeClusterInfo :=
  {| Goal := {| ExpectedUsageBps := usage |} |}.

(** A listener is registered; three falling estimates have been fed, one
    short of the non-probe window. *)
Definition primed : Receiver :=
  feed 10 1000000 100 0 [1000000; 900000; 800000]
    (exec (SetBWEListener (Some 7%nat)) fresh).

(** [primed] with a fourth, lower sample in the observer: state none, trend
    congesting, no probe. *)
Definition primed_sampled : Receiver := sampled 500000 1000000 100 0 primed.

(** The fourth feedback commits 500000 and enters congested, at time 20. *)
Definition congested : Receiver :=
  exec (HandleREMB (clock 20) 500000 1000000 100 0) primed.

(** The next feedback finds the fresh observer neutral: hangover, entered
    at time 30. *)
Definition hangover : Receiver :=
  exec (HandleREMB (clock 30) 500000 1000000 100 0) congested.

(** A probe with goal 2000000 starts on a fresh receiver with a listener. *)
Definition probing : Receiver :=
  exec (ProbeClusterStarting (goal 2000000))
    (exec (SetBWEListener (Some 7%nat)) fresh).

(** Two samples into the probe, below the seed and one short of the probe
    window. *)
Definition probing_primed : Receiver :=
  feed 10 1000000 100 0 [900000; 800000] probing.

(** [probing_primed] with one more, lower sample in the observer: state
    none, trend congesting, probe in flight. *)
Definition probing_sampled : Receiver :=
  sampled 500000 1000000 100 0 probing_primed.

(** The feedback that makes the probe congested, at time 20. *)
Definition probe_congested : Receiver :=
  exec (HandleREMB (clock 20) 500000 1000000 100 0) probing_primed.

(** A probe on a receiver whose committed capacity is 500000, fed rising
    estimates up to 1800000. *)
Definition probe_rising : Receiver :=
  feed 40 2000000 100 0 [1200000; 1500000; 1800000]
    (exec (ProbeClusterStarting (goal 2000000))
       (set_committedChannelCapacity 500000 fresh)).

(** Feedback during the probe of [probing]: the third feedback finds the
    trend congesting, the last one is frozen. *)
Definition probe_feedback : list ProbeCall :=
  [Feedback (clock 10) 900000 1000000 100 0;
   Feedback (clock 20) 500000 1000000 100 0;
   ListenerSet (Some 9%nat);
   Feedback (clock 30) 400000 1000000 100 20;
   Feedback (clock 40) 300000 1000000 100 30].

(** A probe that saw two samples only, both above the seed. *)
Definition probe_short : Receiver :=
  feed 40 2000000 100 0 [1200000; 1500000]
    (exec (ProbeClusterStarting (goal 2000000))
       (set_committedChannelCapacity 500000 fresh)).

(** A probe on [probing] clears at 200000000 and raises the committed
    capacity to it; a second probe is then in flight. *)
Definition probing_high : Receiver :=
  exec (ProbeClusterStarting (goal 300000000))
    (exec (ProbeClusterDone (goal 2000000))
       (feed 40 250000000 100 0 [150000000; 180000000; 200000000]
          probing)).


End Run.


(** * Properties *)

Lemma CongestionState_eqb_spec a b :
  reflect (a = b) (CongestionState_eqb a b).
Proof. destruct a, b; constructor; congruence. Qed.

Lemma channelTrend_eqb_spec a b : reflect (a = b) (channelTrend_eqb a b).
Proof. destruct a, b; constructor; congruence. Qed.

Lemma CongestionState_eqb_refl a : CongestionState_eqb a a = true.
Proof. now destruct a. Qed.

Lemma CongestionState_eqb_neq a b :
  CongestionState_eqb a b = false <-> a <> b.
Proof. destruct (CongestionState_eqb_spec a b); split; congruence. Qed.

Lemma channelTrend_eqb_neq a b : channelTrend_eqb a b = false <-> a <> b.
Proof. destruct (channelTrend_eqb_spec a b); split; congruence. Qed.

(** ** Truncation to int64 *)

Lemma Some_eq {A} (a b : A) : Some a = Some b -> a = b.
Proof. congruence. Qed.

(** For a number that is not negative and fits, comparing an integer with
    the truncation is comparing it with the number itself. *)
Lemma to_int64_exceeds (z : Z) (f : float64) (t : Z) :
  Float64.truncate f = Some t ->
  Float64.nonneg f = true ->
  t <= Float64.max_int64 ->
  Float64.to_int64 f < z <-> Float64.exceeds z f.
Proof.
  intros Ht Hn Hmax.
  assert (H0 : 0 <= t /\ (t < z <-> Float64.exceeds z f)).
  { destruct f as [s | s | | s m e]; try discriminate.
    - cbn in Ht. injection Ht as <-. cbn. lia.
    - destruct s; [discriminate|].
      unfold Float64.exceeds. destruct e as [| q | q]; cbv zeta.
      + assert (E : Some t = Some (Z.pos m * 2 ^ 0))
          by (rewrite <- Ht; reflexivity).
        apply Some_eq in E. subst t.
        change (2 ^ 0) with 1. split; [lia | tauto].
      + assert (E : Some t = Some (Z.pos m * 2 ^ Z.pos q))
          by (rewrite <- Ht; reflexivity).
        apply Some_eq in E. subst t.
        assert (Hd : 0 < 2 ^ Z.pos q) by (apply Z.pow_pos_nonneg; lia).
        split; [nia | tauto].
      + assert (E : Some t = Some (Z.pos m / 2 ^ Z.pos q))
          by (rewrite <- Ht; reflexivity).
        apply Some_eq in E. subst t.
        assert (Hd : 0 < 2 ^ Z.pos q) by (apply Z.pow_pos_nonneg; lia).
        split; [apply Z.div_pos; lia|].
        split; intros H.
        * pose proof (Z.mul_succ_div_gt (Z.pos m) (2 ^ Z.pos q) Hd). nia.
        * apply Z.div_lt_upper_bound; lia. }
  destruct H0 as [Hpos Hiff].
  unfold Float64.to_int64. rewrite Ht.
  replace (Float64.min_int64 <=? t) with true
    by (symmetry; apply Z.leb_le; unfold Float64.min_int64; lia).
  replace (t <=? Float64.max_int64) with true
    by (symmetry; now apply Z.leb_le).
  exact Hiff.
Qed.

Section Properties.

Context {ChannelObserverConfig CO : Type}.
Context `{ops : ChannelObserverOps ChannelObserverConfig CO}.

Local Abbreviation Receiver := (RemoteBWE ChannelObserverConfig CO).

Implicit Types (r : Receiver) (clk : Clock)
  (reason : channelCongestionReason).

(** ** Laws of the monad at its primitives *)

Lemma bind_ret {A B} (a : A) (k : A -> M B) r : bind (ret a) k r = k a r.
Proof. unfold bind, ret. now destruct (k a r) as [[b r2] e2]. Qed.

Lemma bind_get {B} (k : Receiver -> M B) r : bind get k r = k r r.
Proof. unfold bind, get. now destruct (k r r) as [[b r2] e2]. Qed.

Lemma bind_modify {B} (f : Receiver -> Receiver) (k : unit -> M B) r :
  bind (modify f) k r = k tt (f r).
Proof. unfold bind, modify. now destruct (k tt (f r)) as [[b r2] e2]. Qed.

Lemma bind_emit {B} (e : Event) (k : unit -> M B) r :
  bind (emit e) k r = let '(b, r2, e2) := k tt r in (b, r2, e :: e2).
Proof. reflexivity. Qed.

(** ** Runs of the helpers *)

Lemma r_newChannelObserver_run r :
  r_newChannelObserver r =
    (tt,
     set_channelObserver
       (if isInProbe r then probeObserver r else nonProbeObserver r) r,
     []).
Proof.
  unfold r_newChannelObserver, bind, get, modify.
  destruct (isInProbe r); reflexivity.
Qed.

Lemma estimateAvailableChannelCapacity_run reason r :
  estimateAvailableChannelCapacity reason r =
    if estimateToCommit reason r >? commitThreshold r
    then (false, r, [Log Debugw msg_commit_skipped])
    else (true, committed reason r, [Log Infow msg_commit_applied]).
Proof.
  unfold estimateAvailableChannelCapacity, bind at 1, get.
  destruct (estimateToCommit reason r >? commitThreshold r).
  - reflexivity.
  - unfold bind, emit, modify, ret. rewrite r_newChannelObserver_run.
    reflexivity.
Qed.

Lemma updateCongestionState_run clk state reason r :
  updateCongestionState clk state reason r =
    (tt, switched clk state r, [Log Infow msg_state_change]).
Proof. reflexivity. Qed.

Lemma estimateToCommit_le reason r :
  estimateToCommit reason r <= lastReceivedEstimate r.
Proof.
  unfold estimateToCommit.
  destruct (Z.gtb_spec (rawEstimateToCommit reason r)
              (lastReceivedEstimate r)); lia.
Qed.

(** The commit rejects exactly when the candidate exceeds the float64
    product of the threshold and the expected usage, compared exactly,
    provided that product is not negative and fits an int64. *)
Lemma commit_rejected_iff_exceeds reason r (t : Z) :
  let product :=
    Float64.mul (ExpectedUsageThreshold (config r))
      (Float64.of_int (lastExpectedBandwidthUsage r)) in
  Float64.truncate product = Some t ->
  Float64.nonneg product = true ->
  t <= Float64.max_int64 ->
  fst (fst (estimateAvailableChannelCapacity reason r)) = false
  <-> Float64.exceeds (estimateToCommit reason r) product.
Proof.
  intros product Ht Hn Hmax.
  rewrite <- (to_int64_exceeds _ product t Ht Hn Hmax).
  change (Float64.to_int64 product) with (commitThreshold r).
  rewrite estimateAvailableChannelCapacity_run.
  destruct (Z.gtb_spec (estimateToCommit reason r) (commitThreshold r));
    cbn; split; intros; try lia; try discriminate; reflexivity.
Qed.

(** ** Runs of the state machine, case by case *)

Ltac sm_unfold :=
  unfold congestionDetectionStateMachine, transition, updateCongestionState,
    orElse, when, bind, get, ret, emit, modify;
  cbn beta iota.

Ltac sm_finish Hs := cbn; repeat (rewrite Hs; cbn); try reflexivity.

Lemma sm_none_idle clk r :
  congestionState r = CongestionStateNone ->
  fst (GetTrend (channelObserver r)) <> channelTrendCongesting ->
  congestionDetectionStateMachine clk r =
    (false, CongestionStateNone, committedChannelCapacity r, r, []).
Proof.
  intros Hs Ht. sm_unfold.
  destruct (GetTrend (channelObserver r)) as [trend reason].
  apply channelTrend_eqb_neq in Ht. cbn [fst] in Ht.
  rewrite Hs, Ht. sm_finish Hs.
Qed.

Lemma sm_none_congesting_in_probe clk r reason :
  congestionState r = CongestionStateNone ->
  GetTrend (channelObserver r) = (channelTrendCongesting, reason) ->
  isInProbe r = true ->
  congestionDetectionStateMachine clk r =
    (true, CongestionStateCongested, committedChannelCapacity r,
     switched clk CongestionStateCongested r,
     [Log Debugw msg_congesting; Log Infow msg_state_change]).
Proof.
  intros Hs Ht Hp. sm_unfold. rewrite Ht, Hs, Hp. sm_finish Hs.
Qed.

Lemma sm_none_congesting clk r reason :
  congestionState r = CongestionStateNone ->
  GetTrend (channelObserver r) = (channelTrendCongesting, reason) ->
  isInProbe r = false ->
  congestionDetectionStateMachine clk r =
    if estimateToCommit reason r >? commitThreshold r
    then (false, CongestionStateNone, committedChannelCapacity r, r,
          [Log Debugw msg_congesting; Log Debugw msg_commit_skipped])
    else (true, CongestionStateCongested, estimateToCommit reason r,
          switched clk CongestionStateCongested (committed reason r),
          [Log Debugw msg_congesting; Log Infow msg_commit_applied;
           Log Infow msg_state_change]).
Proof.
  intros Hs Ht Hp. sm_unfold. rewrite Ht, Hs, Hp.
  cbn beta iota delta [channelTrend_eqb].
  rewrite estimateAvailableChannelCapacity_run.
  destruct (estimateToCommit reason r >? commitThreshold r).
  - sm_finish Hs.
  - unfold committed at 1. sm_finish Hs.
Qed.

Lemma sm_congested_congesting clk r reason :
  congestionState r = CongestionStateCongested ->
  GetTrend (channelObserver r) = (channelTrendCongesting, reason) ->
  congestionDetectionStateMachine clk r =
    if estimateToCommit reason r >? commitThreshold r
    then (false, CongestionStateCongested, committedChannelCapacity r, r,
          [Log Debugw msg_congesting; Log Debugw msg_commit_skipped])
    else (true, CongestionStateCongested, estimateToCommit reason r,
          switched clk CongestionStateCongested (committed reason r),
          [Log Debugw msg_congesting; Log Infow msg_commit_applied;
           Log Infow msg_state_change]).
Proof.
  intros Hs Ht. sm_unfold. rewrite Ht, Hs.
  cbn beta iota delta [channelTrend_eqb].
  rewrite estimateAvailableChannelCapacity_run.
  destruct (estimateToCommit reason r >? commitThreshold r).
  - sm_finish Hs.
  - unfold committed at 1. sm_finish Hs.
Qed.

Lemma sm_congested_easing clk r :
  congestionState r = CongestionStateCongested ->
  fst (GetTrend (channelObserver r)) <> channelTrendCongesting ->
  congestionDetectionStateMachine clk r =
    (true, CongestionStateCongestedHangover, committedChannelCapacity r,
     switched clk CongestionStateCongestedHangover r,
     [Log Infow msg_state_change]).
Proof.
  intros Hs Ht. sm_unfold.
  destruct (GetTrend (channelObserver r)) as [trend reason].
  apply channelTrend_eqb_neq in Ht. cbn [fst] in Ht.
  rewrite Hs, Ht. sm_finish Hs.
Qed.

Lemma sm_hangover_congesting clk r reason :
  congestionState r = CongestionStateCongestedHangover ->
  GetTrend (channelObserver r) = (channelTrendCongesting, reason) ->
  congestionDetectionStateMachine clk r =
    if estimateToCommit reason r >? commitThreshold r
    then (false, CongestionStateCongestedHangover,
          committedChannelCapacity r, r,
          [Log Debugw msg_congesting; Log Debugw msg_commit_skipped])
    else (true, CongestionStateCongested, estimateToCommit reason r,
          switched clk CongestionStateCongested (committed reason r),
          [Log Debugw msg_congesting; Log Infow msg_commit_applied;
           Log Infow msg_state_change]).
Proof.
  intros Hs Ht. sm_unfold. rewrite Ht, Hs.
  cbn beta iota delta [channelTrend_eqb].
  rewrite estimateAvailableChannelCapacity_run.
  destruct (estimateToCommit reason r >? commitThreshold r).
  - sm_finish Hs.
  - unfold committed at 1. sm_finish Hs.
Qed.

Lemma sm_hangover_easing clk r :
  congestionState r = CongestionStateCongestedHangover ->
  fst (GetTrend (channelObserver r)) <> channelTrendCongesting ->
  congestionDetectionStateMachine clk r =
    if time_Since clk (congestionStateSwitchedAt r)
         >=? CongestedMinDuration (config r)
    then (true, CongestionStateNone, committedChannelCapacity r,
          switched clk CongestionStateNone r, [Log Infow msg_state_change])
    else (false, CongestionStateCongestedHangover,
          committedChannelCapacity r, r, []).
Proof.
  intros Hs Ht. sm_unfold.
  destruct (GetTrend (channelObserver r)) as [trend reason].
  apply channelTrend_eqb_neq in Ht. cbn [fst] in Ht.
  rewrite Hs, Ht. cbn beta iota.
  destruct (time_Since clk (congestionStateSwitchedAt r)
              >=? CongestedMinDuration (config r)); sm_finish Hs.
Qed.

(** ** Runs of the feedback handler *)

Lemma HandleREMB_frozen clk est usage sent nacks r :
  frozen r = true ->
  HandleREMB clk est usage sent nacks r = (tt, recorded est usage r, []).
Proof.
  intros Hf. unfold HandleREMB.
  rewrite !bind_modify, bind_get.
  cbn [isInProbe congestionState set_lastExpectedBandwidthUsage
         set_lastReceivedEstimate].
  unfold frozen in Hf. now rewrite Hf.
Qed.

Lemma HandleREMB_live clk est usage sent nacks r :
  frozen r = false ->
  HandleREMB clk est usage sent nacks r =
    let '(shouldNotify, state, capacity, r', evs) :=
      congestionDetectionStateMachine clk (sampled est usage sent nacks r) in
    (tt, r',
     evs ++ (if shouldNotify
             then match bweListener r' with
                  | Some l => [OnCongestionStateChange l state capacity]
                  | None => []
                  end
             else [])).
Proof.
  intros Hf. unfold HandleREMB.
  rewrite !bind_modify, bind_get.
  cbn [isInProbe congestionState set_lastExpectedBandwidthUsage
         set_lastReceivedEstimate].
  unfold frozen in Hf. rewrite Hf, !bind_modify.
  fold (recorded est usage r).
  change (set_channelObserver _ _) with (sampled est usage sent nacks r).
  unfold bind at 1.
  destruct (congestionDetectionStateMachine clk
              (sampled est usage sent nacks r))
    as [[[[n st] c] r'] evs].
  destruct n; [|reflexivity].
  unfold getBWEListener, bind, get, ret, emit. cbn beta iota.
  now destruct (bweListener r').
Qed.

(** ** What every evaluation of the state machine does *)

Ltac sm_close Hs :=
  cbn; unfold notify_worthy; cbn; rewrite ?Hs; cbn; repeat split.

Lemma sm_summary clk r :
  let '(n, st, c, r', evs) := congestionDetectionStateMachine clk r in
  st = congestionState r'
  /\ c = committedChannelCapacity r'
  /\ bweListener r' = bweListener r
  /\ isInProbe r' = isInProbe r
  /\ notifications evs = []
  /\ n = notify_worthy r r' evs.
Proof.
  destruct (GetTrend (channelObserver r)) as [trend reason] eqn:Ht.
  destruct (channelTrend_eqb_spec trend channelTrendCongesting)
    as [-> | Hne].
  - destruct (congestionState r) eqn:Hs.
    + destruct (isInProbe r) eqn:Hp.
      * rewrite (sm_none_congesting_in_probe clk r reason Hs Ht Hp).
        sm_close Hs. exact Hp.
      * rewrite (sm_none_congesting clk r reason Hs Ht Hp).
        destruct (estimateToCommit reason r >? commitThreshold r);
          sm_close Hs; exact Hp.
    + rewrite (sm_congested_congesting clk r reason Hs Ht).
      destruct (estimateToCommit reason r >? commitThreshold r);
        sm_close Hs.
    + rewrite (sm_hangover_congesting clk r reason Hs Ht).
      destruct (estimateToCommit reason r >? commitThreshold r);
        sm_close Hs.
  - assert (Hn : fst (GetTrend (channelObserver r))
                 <> channelTrendCongesting) by now rewrite Ht.
    destruct (congestionState r) eqn:Hs.
    + rewrite (sm_none_idle clk r Hs Hn). sm_close Hs.
    + rewrite (sm_congested_easing clk r Hs Hn). sm_close Hs.
    + rewrite (sm_hangover_easing clk r Hs Hn).
      destruct (time_Since clk (congestionStateSwitchedAt r)
                  >=? CongestedMinDuration (config r)); sm_close Hs.
Qed.

(** The state machine does not read the listener. *)
Lemma sm_listener clk l r :
  congestionDetectionStateMachine clk (set_bweListener l r) =
    let '(x, r', evs) := congestionDetectionStateMachine clk r in
    (x, set_bweListener l r', evs).
Proof.
  set (q := set_bweListener l r).
  assert (Eo : channelObserver q = channelObserver r) by reflexivity.
  assert (Es : congestionState q = congestionState r) by reflexivity.
  assert (Ep : isInProbe q = isInProbe r) by reflexivity.
  assert (Ee : forall reason,
             estimateToCommit reason q = estimateToCommit reason r)
    by reflexivity.
  assert (Ec : commitThreshold q = commitThreshold r) by reflexivity.
  assert (Et : congestionStateSwitchedAt q = congestionStateSwitchedAt r)
    by reflexivity.
  assert (Ef : config q = config r) by reflexivity.
  destruct (GetTrend (channelObserver r)) as [trend reason] eqn:Ht.
  destruct (channelTrend_eqb_spec trend channelTrendCongesting)
    as [-> | Hne].
  - destruct (congestionState r) eqn:Hs.
    + destruct (isInProbe r) eqn:Hp.
      * rewrite (sm_none_congesting_in_probe clk r reason Hs Ht Hp).
        now rewrite (sm_none_congesting_in_probe clk q reason Hs Ht Hp).
      * rewrite (sm_none_congesting clk r reason Hs Ht Hp).
        rewrite (sm_none_congesting clk q reason Hs Ht Hp), Ee, Ec.
        now destruct (estimateToCommit reason r >? commitThreshold r).
    + rewrite (sm_congested_congesting clk r reason Hs Ht).
      rewrite (sm_congested_congesting clk q reason Hs Ht), Ee, Ec.
      now destruct (estimateToCommit reason r >? commitThreshold r).
    + rewrite (sm_hangover_congesting clk r reason Hs Ht).
      rewrite (sm_hangover_congesting clk q reason Hs Ht), Ee, Ec.
      now destruct (estimateToCommit reason r >? commitThreshold r).
  - assert (Hn : fst (GetTrend (channelObserver r))
                 <> channelTrendCongesting) by now rewrite Ht.
    destruct (congestionState r) eqn:Hs.
    + rewrite (sm_none_idle clk r Hs Hn).
      now rewrite (sm_none_idle clk q Hs Hn).
    + rewrite (sm_congested_easing clk r Hs Hn).
      now rewrite (sm_congested_easing clk q Hs Hn).
    + rewrite (sm_hangover_easing clk r Hs Hn).
      rewrite (sm_hangover_easing clk q Hs Hn), Et, Ef.
      now destruct (time_Since clk (congestionStateSwitchedAt r)
                      >=? CongestedMinDuration (config r)).
Qed.

(** From a state that is not none, an evaluation yields none only out of
    the hangover, on a trend that is not congesting and with the minimum
    duration elapsed. *)
Lemma sm_to_none clk r :
  congestionState r <> CongestionStateNone ->
  congestionState (snd (fst (congestionDetectionStateMachine clk r)))
    = CongestionStateNone ->
  congestionState r = CongestionStateCongestedHangover
  /\ fst (GetTrend (channelObserver r)) <> channelTrendCongesting
  /\ CongestedMinDuration (config r)
       <= time_Since clk (congestionStateSwitchedAt r).
Proof.
  intros Hnn.
  destruct (GetTrend (channelObserver r)) as [trend reason] eqn:Ht.
  destruct (channelTrend_eqb_spec trend channelTrendCongesting)
    as [-> | Hne].
  - destruct (congestionState r) eqn:Hs; [easy | |].
    + rewrite (sm_congested_congesting clk r reason Hs Ht).
      destruct (estimateToCommit reason r >? commitThreshold r); cbn;
        rewrite ?Hs; discriminate.
    + rewrite (sm_hangover_congesting clk r reason Hs Ht).
      destruct (estimateToCommit reason r >? commitThreshold r); cbn;
        rewrite ?Hs; discriminate.
  - assert (Hn : fst (GetTrend (channelObserver r))
                 <> channelTrendCongesting) by now rewrite Ht.
    destruct (congestionState r) eqn:Hs; [easy | |].
    + rewrite (sm_congested_easing clk r Hs Hn). cbn. discriminate.
    + rewrite (sm_hangover_easing clk r Hs Hn).
      destruct (Z.geb_spec (time_Since clk (congestionStateSwitchedAt r))
                  (CongestedMinDuration (config r))); cbn.
      * intros _. repeat split; [exact Hne | lia].
      * rewrite Hs. discriminate.
Qed.

(** ** Runs of the probe lifecycle and of [Reset] *)

Lemma ProbeClusterStarting_run pci r :
  ProbeClusterStarting pci r =
    (tt,
     set_channelObserver (probeObserver r)
       (set_isInProbe true
          (set_lastExpectedBandwidthUsage (ExpectedUsageBps (Goal pci)) r)),
     [Log Debugw msg_probe_starting]).
Proof.
  unfold ProbeClusterStarting.
  rewrite bind_modify, bind_emit, bind_modify, r_newChannelObserver_run.
  reflexivity.
Qed.

Lemma ProbeClusterDone_run pci r :
  ProbeClusterDone pci r =
    let pco := channelObserver r in
    let evs := [Log Debugw msg_probe_done] in
    if negb (CongestionState_eqb (congestionState r) CongestionStateNone)
    then (ProbeSignalCongesting, committedChannelCapacity r,
          probeEnded r, evs)
    else if negb (HasEnoughEstimateSamples pco)
            || channelTrend_eqb (fst (GetTrend pco)) channelTrendNeutral
    then (ProbeSignalInconclusive, committedChannelCapacity r,
          probeEnded r, evs)
    else if GetHighestEstimate pco >? committedChannelCapacity r
    then (ProbeSignalClearing, GetHighestEstimate pco,
          set_committedChannelCapacity (GetHighestEstimate pco)
            (probeEnded r), evs)
    else (ProbeSignalClearing, committedChannelCapacity r,
          probeEnded r, evs).
Proof.
  unfold ProbeClusterDone.
  rewrite bind_get, !bind_modify.
  unfold bind at 1. rewrite r_newChannelObserver_run.
  cbn [isInProbe set_congestionState set_isInProbe].
  rewrite bind_emit, bind_get.
  destruct (negb (CongestionState_eqb (congestionState r)
                    CongestionStateNone)); [reflexivity|].
  destruct (GetTrend (channelObserver r)) as [trend reason].
  cbn [fst].
  destruct (negb (HasEnoughEstimateSamples (channelObserver r))
            || channelTrend_eqb trend channelTrendNeutral);
    [reflexivity|].
  unfold when, bind, get, modify, ret. cbn.
  now destruct (GetHighestEstimate (channelObserver r)
                  >? committedChannelCapacity r).
Qed.

Lemma Reset_run clk r :
  Reset clk r =
    (tt,
     {| params := params r;
        lastReceivedEstimate := 0;
        lastExpectedBandwidthUsage := 0;
        committedChannelCapacity := 100000000;
        isInProbe := false;
        channelObserver := nonProbeObserver r;
        congestionState := CongestionStateNone;
        congestionStateSwitchedAt := mono_Now clk;
        bweListener := bweListener r |},
     []).
Proof.
  unfold Reset. rewrite !bind_modify.
  unfold bind. rewrite r_newChannelObserver_run. reflexivity.
Qed.

(** ** Event lists *)

Lemma notifications_app (e1 e2 : list Event) :
  notifications (e1 ++ e2) = notifications e1 ++ notifications e2.
Proof. apply filter_app. Qed.

Lemma drop_notifications_app (e1 e2 : list Event) :
  drop_notifications (e1 ++ e2)
    = drop_notifications e1 ++ drop_notifications e2.
Proof. apply filter_app. Qed.

Lemma commit_applied_app (e1 e2 : list Event) :
  commit_applied (e1 ++ e2) = commit_applied e1 || commit_applied e2.
Proof. apply existsb_app. Qed.

Lemma commit_attempts_app (e1 e2 : list Event) :
  commit_attempts (e1 ++ e2)
    = (commit_attempts e1 + commit_attempts e2)%nat.
Proof.
  unfold commit_attempts. now rewrite filter_app, length_app.
Qed.

Lemma drop_notifications_logs (evs : list Event) :
  notifications evs = [] -> drop_notifications evs = evs.
Proof.
  unfold notifications, drop_notifications.
  induction evs as [| e evs IH]; [reflexivity|].
  cbn. destruct (is_notification e); cbn; [discriminate|].
  intros H. now rewrite IH.
Qed.

(** ** One call with a probe in flight *)

Lemma HandleREMB_in_probe clk est usage sent nacks r :
  isInProbe r = true ->
  let '(_, r', evs) := HandleREMB clk est usage sent nacks r in
  isInProbe r' = true
  /\ committedChannelCapacity r' = committedChannelCapacity r
  /\ commit_attempts evs = 0%nat.
Proof.
  intros Hp. destruct (frozen r) eqn:Hf.
  - rewrite HandleREMB_frozen by exact Hf. cbn. now rewrite Hp.
  - rewrite HandleREMB_live by exact Hf.
    assert (Hs : congestionState r = CongestionStateNone).
    { unfold frozen in Hf. rewrite Hp in Hf. cbn in Hf.
      apply negb_false_iff in Hf.
      now destruct (CongestionState_eqb_spec (congestionState r)
                      CongestionStateNone). }
    set (q := sampled est usage sent nacks r).
    assert (Hsq : congestionState q = CongestionStateNone) by exact Hs.
    assert (Hpq : isInProbe q = true) by exact Hp.
    destruct (GetTrend (channelObserver q)) as [trend reason] eqn:Ht.
    destruct (channelTrend_eqb_spec trend channelTrendCongesting)
      as [-> | Hne].
    + rewrite (sm_none_congesting_in_probe clk q reason Hsq Ht Hpq).
      cbn. rewrite Hp. now destruct (bweListener r).
    + rewrite (sm_none_idle clk q Hsq) by now rewrite Ht.
      cbn. now rewrite Hp.
Qed.

Lemma call_in_probe (c : ProbeCall) r :
  isInProbe r = true ->
  let '(_, r', evs) := call c r in
  isInProbe r' = true
  /\ committedChannelCapacity r' = committedChannelCapacity r
  /\ commit_attempts evs = 0%nat.
Proof.
  intros Hp. destruct c as [clk e u s n | pci | l]; cbn [call].
  - now apply HandleREMB_in_probe.
  - rewrite ProbeClusterStarting_run. cbn. repeat split.
  - cbn. repeat split. exact Hp.
Qed.

Lemma calls_in_probe (cs : list ProbeCall) r :
  isInProbe r = true ->
  let '(_, r', evs) := calls cs r in
  isInProbe r' = true
  /\ committedChannelCapacity r' = committedChannelCapacity r
  /\ commit_attempts evs = 0%nat.
Proof.
  revert r. induction cs as [| c cs IH]; intros r Hp.
  - cbn. repeat split. exact Hp.
  - cbn [calls]. unfold bind.
    pose proof (call_in_probe c r Hp) as Hc.
    destruct (call c r) as [[u r1] e1]. destruct Hc as (Hp1 & Hc1 & Ha1).
    specialize (IH r1 Hp1).
    destruct (calls cs r1) as [[u2 r2] e2]. destruct IH as (Hp2 & Hc2 & Ha2).
    rewrite commit_attempts_app, Ha1, Ha2. repeat split; congruence.
Qed.

End Properties.


(** * The properties of the specification *)

Section Claims.

Context {ChannelObserverConfig CO : Type}.
Context `{ops : ChannelObserverOps ChannelObserverConfig CO}.

Local Abbreviation Receiver := (RemoteBWE ChannelObserverConfig CO).

Implicit Types (r : Receiver) (clk : Clock)
  (reason : channelCongestionReason).

Ltac settle :=
  cbn; repeat split; intros;
  try reflexivity; try congruence; try lia;
  try match goal with
      | H : _ \/ _ |- _ => destruct H; congruence
      end.

(** C1, as amended. In state none with a congesting trend, the state
    becomes congested exactly when a probe is in flight or the commit
    succeeds, and stays none otherwise; the commit is attempted only when no
    probe is in flight. With a probe in flight no attempt is made and the
    committed capacity and the observer are left as they were; without one,
    exactly one attempt is made and they are what the attempt leaves. *)
Theorem C1_none_congesting clk r reason :
  congestionState r = CongestionStateNone ->
  GetTrend (channelObserver r) = (channelTrendCongesting, reason) ->
  let '(_, r', evs) := congestionDetectionStateMachine clk r in
  let '(ok, rc, _) := estimateAvailableChannelCapacity reason r in
  congestionState r' =
    (if isInProbe r || ok then CongestionStateCongested
     else CongestionStateNone)
  /\ (if isInProbe r
      then commit_attempts evs = 0%nat
           /\ committedChannelCapacity r' = committedChannelCapacity r
           /\ channelObserver r' = channelObserver r
      else commit_attempts evs = 1%nat
           /\ committedChannelCapacity r' = committedChannelCapacity rc
           /\ channelObserver r' = channelObserver rc).
Proof.
  intros Hs Ht.
  destruct (isInProbe r) eqn:Hp.
  - rewrite (sm_none_congesting_in_probe clk r reason Hs Ht Hp).
    destruct (estimateAvailableChannelCapacity reason r) as [[ok rc] evc].
    cbn. repeat split.
  - rewrite (sm_none_congesting clk r reason Hs Ht Hp).
    rewrite estimateAvailableChannelCapacity_run.
    destruct (estimateToCommit reason r >? commitThreshold r); cbn.
    + rewrite Hs. repeat split.
    + repeat split.
Qed.

(** C2. A call of the feedback handler made while a probe is in flight and
    the state is not none records the received estimate and the expected
    usage and does nothing else: the observer, the congestion state, the
    committed capacity and the time of the last switch are as before, and no
    event is emitted, so the listener hears nothing. *)
Theorem C2_freeze clk est usage sent nacks r :
  isInProbe r = true ->
  congestionState r <> CongestionStateNone ->
  let '(_, r', evs) := HandleREMB clk est usage sent nacks r in
  lastReceivedEstimate r' = est
  /\ lastExpectedBandwidthUsage r' = usage
  /\ channelObserver r' = channelObserver r
  /\ congestionState r' = congestionState r
  /\ committedChannelCapacity r' = committedChannelCapacity r
  /\ congestionStateSwitchedAt r' = congestionStateSwitchedAt r
  /\ isInProbe r' = true
  /\ evs = [].
Proof.
  intros Hp Hs.
  rewrite HandleREMB_frozen.
  - cbn. repeat split. exact Hp.
  - unfold frozen. rewrite Hp. apply CongestionState_eqb_neq in Hs.
    now rewrite Hs.
Qed.

(** C3. Whenever the capacity commit accepts, the committed capacity it
    sets is at most the last received estimate, whatever the reason; the
    commit leaves the last received estimate as it was. *)
Theorem C3_commit_clamp reason r r' evs :
  estimateAvailableChannelCapacity reason r = (true, r', evs) ->
  committedChannelCapacity r' <= lastReceivedEstimate r'
  /\ lastReceivedEstimate r' = lastReceivedEstimate r.
Proof.
  rewrite estimateAvailableChannelCapacity_run.
  destruct (estimateToCommit reason r >? commitThreshold r);
    intros H; inversion H; subst; clear H.
  cbn. split; [apply estimateToCommit_le | reflexivity].
Qed.

(** C4, as amended. The capacity commit rejects when the candidate exceeds
    the commit threshold, which is the float64 product of the expected
    usage threshold and the last expected usage truncated to an int64, and
    then leaves the receiver, hence the committed capacity and the observer,
    as it was; otherwise it accepts, sets the committed capacity to the
    candidate and installs a fresh observer. Whenever the product is not
    negative and fits an int64, exceeding the threshold is exceeding the
    product itself. *)
Theorem C4_commit_threshold reason r :
  let product :=
    Float64.mul (ExpectedUsageThreshold (config r))
      (Float64.of_int (lastExpectedBandwidthUsage r)) in
  let candidate := estimateToCommit reason r in
  let '(ok, r', _) := estimateAvailableChannelCapacity reason r in
  (candidate > Float64.to_int64 product -> ok = false /\ r' = r)
  /\ (candidate <= Float64.to_int64 product ->
      ok = true
      /\ committedChannelCapacity r' = candidate
      /\ channelObserver r' =
           (if isInProbe r' then probeObserver r'
            else nonProbeObserver r'))
  /\ (forall t : Z,
        Float64.truncate product = Some t ->
        Float64.nonneg product = true ->
        t <= Float64.max_int64 ->
        candidate > Float64.to_int64 product
        <-> Float64.exceeds candidate product).
Proof.
  cbv zeta. rewrite estimateAvailableChannelCapacity_run.
  change (commitThreshold r)
    with (Float64.to_int64
            (Float64.mul (ExpectedUsageThreshold (config r))
               (Float64.of_int (lastExpectedBandwidthUsage r)))).
  set (product := Float64.mul _ _).
  assert (Hx : forall t : Z,
             Float64.truncate product = Some t ->
             Float64.nonneg product = true ->
             t <= Float64.max_int64 ->
             estimateToCommit reason r > Float64.to_int64 product
             <-> Float64.exceeds (estimateToCommit reason r) product).
  { intros t Ht Hn Hmax.
    rewrite <- (to_int64_exceeds _ product t Ht Hn Hmax). lia. }
  destruct (Z.gtb_spec (estimateToCommit reason r)
              (Float64.to_int64 product)).
  - split; [easy | split; [lia | exact Hx]].
  - split; [lia | split; [intros _ | exact Hx]].
    cbn. repeat split.
Qed.

(** C5. From congested hangover with a trend that is not congesting, an
    evaluation of the state machine leaves the state in hangover while the
    time since the last switch is below [CongestedMinDuration], and makes it
    none once that duration has elapsed. *)
Theorem C5_hangover_exit clk r :
  congestionState r = CongestionStateCongestedHangover ->
  fst (GetTrend (channelObserver r)) <> channelTrendCongesting ->
  let '(_, r', _) := congestionDetectionStateMachine clk r in
  (time_Since clk (congestionStateSwitchedAt r)
     < CongestedMinDuration (config r) ->
   congestionState r' = CongestionStateCongestedHangover)
  /\ (CongestedMinDuration (config r)
        <= time_Since clk (congestionStateSwitchedAt r) ->
      congestionState r' = CongestionStateNone).
Proof.
  intros Hs Ht. rewrite (sm_hangover_easing clk r Hs Ht).
  destruct (Z.geb_spec (time_Since clk (congestionStateSwitchedAt r))
              (CongestedMinDuration (config r))).
  - split; [lia | reflexivity].
  - split; [intros _; exact Hs | lia].
Qed.

(** C6. [ProbeClusterDone] decides from the congestion state and the
    observer it finds on entry. With a state that is not none it returns
    congesting and leaves the committed capacity. Otherwise, with too few
    estimate samples in that observer or a neutral trend, it returns
    inconclusive and leaves the committed capacity. Otherwise it returns
    clearing, and the committed capacity becomes the observer's highest
    estimate when that exceeds it and is left as it was when not. The
    capacity it returns is the committed capacity it leaves. *)
Theorem C6_probe_done_decision pci r :
  let pco := channelObserver r in
  let '(signal, capacity, r', _) := ProbeClusterDone pci r in
  capacity = committedChannelCapacity r'
  /\ (congestionState r <> CongestionStateNone ->
      signal = ProbeSignalCongesting
      /\ committedChannelCapacity r' = committedChannelCapacity r)
  /\ (congestionState r = CongestionStateNone ->
      HasEnoughEstimateSamples pco = false
      \/ fst (GetTrend pco) = channelTrendNeutral ->
      signal = ProbeSignalInconclusive
      /\ committedChannelCapacity r' = committedChannelCapacity r)
  /\ (congestionState r = CongestionStateNone ->
      HasEnoughEstimateSamples pco = true ->
      fst (GetTrend pco) <> channelTrendNeutral ->
      signal = ProbeSignalClearing
      /\ (GetHighestEstimate pco > committedChannelCapacity r ->
          committedChannelCapacity r' = GetHighestEstimate pco)
      /\ (GetHighestEstimate pco <= committedChannelCapacity r ->
          committedChannelCapacity r' = committedChannelCapacity r)).
Proof.
  cbv zeta. rewrite ProbeClusterDone_run. cbv zeta.
  destruct (CongestionState_eqb_spec (congestionState r)
              CongestionStateNone) as [Hs | Hs]; cbn [negb];
    [| settle].
  destruct (HasEnoughEstimateSamples (channelObserver r)) eqn:He;
    cbn [negb orb]; [| settle].
  destruct (channelTrend_eqb_spec (fst (GetTrend (channelObserver r)))
              channelTrendNeutral) as [Ht | Ht]; [settle |].
  destruct (Z.gtb_spec (GetHighestEstimate (channelObserver r))
              (committedChannelCapacity r)); settle.
Qed.

(** C7. Every call of [ProbeClusterDone] returns one of inconclusive,
    congesting and clearing, and whichever it returns, it leaves the probe
    flag off, the congestion state none and a fresh non-probe observer
    installed. *)
Theorem C7_probe_done_resets pci r :
  let '(signal, _, r', _) := ProbeClusterDone pci r in
  (signal = ProbeSignalInconclusive
   \/ signal = ProbeSignalCongesting
   \/ signal = ProbeSignalClearing)
  /\ isInProbe r' = false
  /\ congestionState r' = CongestionStateNone
  /\ channelObserver r' = nonProbeObserver r'.
Proof.
  rewrite ProbeClusterDone_run. cbv zeta.
  destruct (negb (CongestionState_eqb (congestionState r)
                    CongestionStateNone)); [cbn; tauto|].
  destruct (negb (HasEnoughEstimateSamples (channelObserver r))
            || channelTrend_eqb (fst (GetTrend (channelObserver r)))
                 channelTrendNeutral); [cbn; tauto|].
  destruct (GetHighestEstimate (channelObserver r)
              >? committedChannelCapacity r); cbn; tauto.
Qed.

(** C8. A call of the feedback handler notifies the listener, once and
    with the resulting state and committed capacity, exactly when the
    resulting state differs from the prior one or the state was and remains
    congested and a commit was applied; otherwise it does not notify. With
    no listener registered nothing is notified, and the receiver is left as
    it is with one, events apart from the notification included. *)
Theorem C8_notification clk est usage sent nacks r :
  let '(_, r', evs) := HandleREMB clk est usage sent nacks r in
  notifications evs =
    (if notify_worthy r r' evs
     then match bweListener r with
          | Some l =>
              [OnCongestionStateChange l (congestionState r')
                 (committedChannelCapacity r')]
          | None => []
          end
     else [])
  /\ HandleREMB clk est usage sent nacks (set_bweListener None r) =
       (tt, set_bweListener None r', drop_notifications evs).
Proof.
  destruct (frozen r) eqn:Hf.
  - rewrite HandleREMB_frozen by exact Hf.
    rewrite (HandleREMB_frozen clk est usage sent nacks
               (set_bweListener None r)) by exact Hf.
    unfold notify_worthy. cbn.
    rewrite CongestionState_eqb_refl, andb_false_r. split; reflexivity.
  - rewrite HandleREMB_live by exact Hf.
    rewrite (HandleREMB_live clk est usage sent nacks
               (set_bweListener None r)) by exact Hf.
    change (sampled est usage sent nacks (set_bweListener None r))
      with (set_bweListener None (sampled est usage sent nacks r)).
    rewrite sm_listener.
    pose proof (sm_summary clk (sampled est usage sent nacks r)) as H.
    destruct (congestionDetectionStateMachine clk
                (sampled est usage sent nacks r))
      as [[[[n st] c] r1] evs].
    destruct H as (-> & -> & Hl & _ & Hno & ->).
    change (bweListener (sampled est usage sent nacks r))
      with (bweListener r) in Hl.
    change (notify_worthy (sampled est usage sent nacks r) r1 evs)
      with (notify_worthy r r1 evs).
    assert (Hw : forall l s c,
               notify_worthy r r1 (evs ++ [OnCongestionStateChange l s c])
               = notify_worthy r r1 evs).
    { intros l s c. unfold notify_worthy.
      rewrite commit_applied_app. cbn. now rewrite orb_false_r. }
    rewrite Hl. cbn [bweListener set_bweListener].
    destruct (notify_worthy r r1 evs) eqn:Hn.
    + destruct (bweListener r) as [l|].
      * rewrite Hw.
        rewrite notifications_app, drop_notifications_app, Hno.
        rewrite (drop_notifications_logs evs Hno). split; reflexivity.
      * rewrite app_nil_r, Hn, (drop_notifications_logs evs Hno).
        split; [exact Hno | reflexivity].
    + rewrite app_nil_r, Hn, (drop_notifications_logs evs Hno).
      split; [exact Hno | reflexivity].
Qed.

(** C9. After [Reset], and so after construction, the last received
    estimate and the last expected usage are zero, the committed capacity
    is 100000000, no probe is in flight, the congestion state is none, a
    fresh non-probe observer is installed and the time of the last switch
    is the current time. *)
Theorem C9_reset clk r (nilObserver : CO)
    (p : RemoteBWEParams ChannelObserverConfig) :
  let fresh_state (r' : Receiver) :=
    lastReceivedEstimate r' = 0
    /\ lastExpectedBandwidthUsage r' = 0
    /\ committedChannelCapacity r' = 100000000
    /\ isInProbe r' = false
    /\ congestionState r' = CongestionStateNone
    /\ channelObserver r' = nonProbeObserver r'
    /\ congestionStateSwitchedAt r' = mono_Now clk in
  fresh_state (snd (fst (Reset clk r)))
  /\ fresh_state (NewRemoteBWE nilObserver clk p).
Proof.
  cbv zeta. unfold NewRemoteBWE. rewrite !Reset_run. cbn. repeat split.
Qed.

(** C10, as amended. With a probe in flight the capacity commit is never
    run: over any sequence of feedback calls, probe restarts and listener
    registrations the probe stays in flight, no commit is attempted and the
    committed capacity stays what it was. It changes only with the call that
    ends the probe, and neither of the two attempts a commit:
    [ProbeClusterDone] never lowers it and changes it only when it returns
    clearing; [Reset] sets it back to 100000000. *)
Theorem C10_probe_capacity (cs : list ProbeCall) pci clk r :
  isInProbe r = true ->
  let '(_, r1, evs1) := calls cs r in
  let '(signal, _, r2, evs2) := ProbeClusterDone pci r1 in
  let '(_, r3, evs3) := Reset clk r1 in
  (isInProbe r1 = true
   /\ commit_attempts evs1 = 0%nat
   /\ committedChannelCapacity r1 = committedChannelCapacity r)
  /\ (isInProbe r2 = false
      /\ commit_attempts evs2 = 0%nat
      /\ committedChannelCapacity r <= committedChannelCapacity r2
      /\ (committedChannelCapacity r2 <> committedChannelCapacity r ->
          signal = ProbeSignalClearing))
  /\ (isInProbe r3 = false
      /\ commit_attempts evs3 = 0%nat
      /\ committedChannelCapacity r3 = 100000000).
Proof.
  intros Hp. pose proof (calls_in_probe cs r Hp) as H.
  destruct (calls cs r) as [[u r1] evs1]. destruct H as (Hp1 & Hc & Ha).
  rewrite ProbeClusterDone_run, Reset_run. cbv zeta. rewrite <- Hc.
  destruct (negb (CongestionState_eqb (congestionState r1)
                    CongestionStateNone));
    [cbn; repeat split; try lia; congruence|].
  destruct (negb (HasEnoughEstimateSamples (channelObserver r1))
            || channelTrend_eqb (fst (GetTrend (channelObserver r1)))
                 channelTrendNeutral);
    [cbn; repeat split; try lia; congruence|].
  destruct (Z.gtb_spec (GetHighestEstimate (channelObserver r1))
              (committedChannelCapacity r1));
    cbn; repeat split; try lia; congruence.
Qed.

End Claims.


(** * Runs on concrete receivers *)

(** C1 as stated fails with a probe in flight. On [Run.probing_sampled]
    the state is none, the trend is congesting and a probe is in flight;
    the state machine makes no commit attempt and leaves the committed
    capacity at 100000000, while the commit, had it run, would have been
    accepted and would have set the capacity to 500000. *)
Lemma C1_counterexample :
  let r := Run.probing_sampled in
  let '(_, r', evs) := congestionDetectionStateMachine (Run.clock 20) r in
  let '(ok, rc, evc) :=
    estimateAvailableChannelCapacity channelCongestionReasonEstimate r in
  congestionState r = CongestionStateNone
  /\ GetTrend (channelObserver r)
     = (channelTrendCongesting, channelCongestionReasonEstimate)
  /\ isInProbe r = true
  /\ commit_attempts evs = 0%nat
  /\ commit_attempts evc = 1%nat
  /\ ok = true
  /\ committedChannelCapacity rc = 500000
  /\ committedChannelCapacity r' = 100000000
  /\ channelObserver r' <> channelObserver rc.
Proof. vm_compute. repeat split. discriminate. Qed.

(** [C1_none_congesting] with a probe in flight and without one. *)
Lemma C1_none_congesting_witness :
  (let '(_, r', evs) :=
     congestionDetectionStateMachine (Run.clock 20) Run.probing_sampled in
   congestionState r' = CongestionStateCongested
   /\ commit_attempts evs = 0%nat
   /\ committedChannelCapacity r' = 100000000)
  /\ (let '(_, r', evs) :=
        congestionDetectionStateMachine (Run.clock 20) Run.primed_sampled in
      congestionState r' = CongestionStateCongested
      /\ commit_attempts evs = 1%nat
      /\ committedChannelCapacity r' = 500000).
Proof.
  split.
  - pose proof (C1_none_congesting (Run.clock 20) Run.probing_sampled
                  channelCongestionReasonEstimate eq_refl eq_refl) as H.
    vm_compute in H. vm_compute. tauto.
  - pose proof (C1_none_congesting (Run.clock 20) Run.primed_sampled
                  channelCongestionReasonEstimate eq_refl eq_refl) as H.
    vm_compute in H. vm_compute. tauto.
Defined.

(** [C2_freeze] on a probe that has turned congested. *)
Lemma C2_freeze_witness :
  let '(_, r', evs) :=
    HandleREMB (Run.clock 30) 400000 1000000 100 20 Run.probe_congested in
  lastReceivedEstimate r' = 400000
  /\ lastExpectedBandwidthUsage r' = 1000000
  /\ channelObserver r' = channelObserver Run.probe_congested
  /\ congestionState r' = congestionState Run.probe_congested
  /\ committedChannelCapacity r'
     = committedChannelCapacity Run.probe_congested
  /\ congestionStateSwitchedAt r'
     = congestionStateSwitchedAt Run.probe_congested
  /\ isInProbe r' = true
  /\ evs = [].
Proof.
  apply (C2_freeze (Run.clock 30) 400000 1000000 100 20 Run.probe_congested).
  - vm_compute. reflexivity.
  - vm_compute. discriminate.
Defined.

(** [C3_commit_clamp] on the commit that [Run.primed_sampled] accepts. *)
Lemma C3_commit_clamp_witness :
  let r' := committed channelCongestionReasonEstimate Run.primed_sampled in
  committedChannelCapacity r' <= lastReceivedEstimate r'
  /\ lastReceivedEstimate r' = lastReceivedEstimate Run.primed_sampled.
Proof.
  apply (C3_commit_clamp channelCongestionReasonEstimate Run.primed_sampled
           (committed channelCongestionReasonEstimate Run.primed_sampled)
           [Log Infow msg_commit_applied]).
  vm_compute. reflexivity.
Defined.

(** [C5_hangover_exit] on [Run.hangover], entered at time 30: a second
    later the state is still hangover, three seconds later it is none. *)
Lemma C5_hangover_exit_witness :
  congestionState
    (snd (fst (congestionDetectionStateMachine
                 (Run.clock (30 + Second)) Run.hangover)))
    = CongestionStateCongestedHangover
  /\ congestionState
       (snd (fst (congestionDetectionStateMachine
                    (Run.clock (30 + 3 * Second)) Run.hangover)))
     = CongestionStateNone.
Proof.
  split.
  - pose proof (C5_hangover_exit (Run.clock (30 + Second)) Run.hangover)
      as H.
    destruct (congestionDetectionStateMachine (Run.clock (30 + Second))
                Run.hangover) as [[x r'] evs].
    apply H; vm_compute; [reflexivity | discriminate | reflexivity].
  - pose proof (C5_hangover_exit (Run.clock (30 + 3 * Second)) Run.hangover)
      as H.
    destruct (congestionDetectionStateMachine
                (Run.clock (30 + 3 * Second)) Run.hangover)
      as [[x r'] evs].
    apply H; vm_compute; [reflexivity | discriminate | discriminate].
Defined.

(** C4 as stated fails for a negative expected usage. With an expected
    usage of -1 and a last received estimate of 0 the candidate is 0 and the
    product is about -0.95: the candidate exceeds the product, and the
    commit is accepted and sets the committed capacity to 0. *)
Lemma C4_counterexample :
  let r := set_lastExpectedBandwidthUsage (-1) Run.fresh in
  let product :=
    Float64.mul (ExpectedUsageThreshold (config r))
      (Float64.of_int (lastExpectedBandwidthUsage r)) in
  let candidate := estimateToCommit channelCongestionReasonEstimate r in
  let '(ok, r', _) :=
    estimateAvailableChannelCapacity channelCongestionReasonEstimate r in
  candidate = 0
  /\ product = S754_finite true 8556839292003942 (-53)
  /\ Float64.exceeds candidate product
  /\ ok = true
  /\ committedChannelCapacity r = 100000000
  /\ committedChannelCapacity r' = 0.
Proof. vm_compute. repeat split. Qed.

(** [C4_commit_threshold] on [Run.primed_sampled], whose product is
    950000: the candidate 500000 does not exceed it and is committed. *)
Lemma C4_commit_threshold_witness :
  let r := Run.primed_sampled in
  let product :=
    Float64.mul (ExpectedUsageThreshold (config r))
      (Float64.of_int (lastExpectedBandwidthUsage r)) in
  let '(ok, r', _) :=
    estimateAvailableChannelCapacity channelCongestionReasonEstimate r in
  (ok = true /\ committedChannelCapacity r' = 500000)
  /\ (500000 > Float64.to_int64 product
      <-> Float64.exceeds 500000 product).
Proof.
  pose proof (C4_commit_threshold channelCongestionReasonEstimate
                Run.primed_sampled) as H.
  cbv zeta in H. cbv zeta.
  destruct (estimateAvailableChannelCapacity
              channelCongestionReasonEstimate Run.primed_sampled)
    as [[ok r'] evs].
  destruct H as (_ & Ha & Hx). split.
  - destruct Ha as (Hok & Hc & _); [vm_compute; discriminate|].
    split; [exact Hok | rewrite Hc; vm_compute; reflexivity].
  - apply (Hx 950000); vm_compute; [reflexivity | reflexivity | discriminate].
Defined.

(** C10 as stated fails at [Reset]. On [Run.probing_high] a probe is in
    flight with a committed capacity of 200000000; [Reset] is not
    [ProbeClusterDone], attempts no commit, and lowers the committed
    capacity to 100000000. *)
Lemma C10_counterexample :
  let r := Run.probing_high in
  let '(_, r', evs) := Reset (Run.clock 50) r in
  isInProbe r = true
  /\ committedChannelCapacity r = 200000000
  /\ commit_attempts evs = 0%nat
  /\ committedChannelCapacity r' = 100000000
  /\ committedChannelCapacity r' < committedChannelCapacity r.
Proof. vm_compute. repeat split. Qed.

(** [C10_probe_capacity] on the probe of [Run.probing] and the feedback of
    [Run.probe_feedback]. *)
Lemma C10_probe_capacity_witness :
  let '(_, r1, evs1) := calls Run.probe_feedback Run.probing in
  let '(signal, _, r2, evs2) := ProbeClusterDone (Run.goal 2000000) r1 in
  let '(_, r3, evs3) := Reset (Run.clock 50) r1 in
  (isInProbe r1 = true
   /\ commit_attempts evs1 = 0%nat
   /\ committedChannelCapacity r1 = committedChannelCapacity Run.probing)
  /\ (isInProbe r2 = false
      /\ commit_attempts evs2 = 0%nat
      /\ committedChannelCapacity Run.probing
         <= committedChannelCapacity r2
      /\ (committedChannelCapacity r2
            <> committedChannelCapacity Run.probing ->
          signal = ProbeSignalClearing))
  /\ (isInProbe r3 = false
      /\ commit_attempts evs3 = 0%nat
      /\ committedChannelCapacity r3 = 100000000).
Proof.
  apply (C10_probe_capacity Run.probe_feedback (Run.goal 2000000)
           (Run.clock 50) Run.probing).
  vm_compute. reflexivity.
Defined.

(** ** The scenarios of the specification *)

(** Steady feedback without congestion keeps the state none and the
    committed capacity at its initial value. *)
Example steady_feedback :
  let r :=
    Run.feed 10 900000 100 0
      [1000000; 1000000; 1000000; 1000000; 1000000; 1000000] Run.fresh in
  congestionState r = CongestionStateNone
  /\ committedChannelCapacity r = 100000000.
Proof. vm_compute. split; reflexivity. Qed.

(** The feedback that completes a falling window commits, enters congested
    and notifies the listener once. *)
Example congestion_notified_once :
  let '(_, r', evs) :=
    HandleREMB (Run.clock 20) 500000 1000000 100 0 Run.primed in
  congestionState r' = CongestionStateCongested
  /\ committedChannelCapacity r' = 500000
  /\ notifications evs
     = [OnCongestionStateChange 7%nat CongestionStateCongested 500000].
Proof. vm_compute. repeat split. Qed.

(** A candidate above the threshold is rejected and nothing changes. *)
Example commit_rejected_above_threshold :
  let r := set_lastReceivedEstimate 990000 Run.primed_sampled in
  estimateToCommit channelCongestionReasonEstimate r = 990000
  /\ commitThreshold r = 950000
  /\ estimateAvailableChannelCapacity channelCongestionReasonEstimate r
     = (false, r, [Log Debugw msg_commit_skipped]).
Proof. vm_compute. repeat split. Qed.

(** The truncation of the threshold is toward zero: a negative expected
    usage of one gives a threshold of zero. *)
Example commitThreshold_rounds_toward_zero :
  commitThreshold (set_lastExpectedBandwidthUsage (-1) Run.fresh) = 0.
Proof. vm_compute. reflexivity. Qed.

(** A probe with rising estimates and no congestion clears, and raises the
    committed capacity from 500000 to the peak of 1800000. *)
Example probe_clears :
  let '(signal, capacity, r', _) :=
    ProbeClusterDone (Run.goal 2000000) Run.probe_rising in
  signal = ProbeSignalClearing
  /\ capacity = 1800000
  /\ committedChannelCapacity r' = 1800000.
Proof. vm_compute. repeat split. Qed.

(** A probe ended before enough samples came in is inconclusive. *)
Example probe_inconclusive :
  let '(signal, capacity, r', _) :=
    ProbeClusterDone (Run.goal 2000000) Run.probing in
  signal = ProbeSignalInconclusive
  /\ capacity = 100000000
  /\ committedChannelCapacity r' = 100000000.
Proof. vm_compute. repeat split. Qed.

(** A probe that saw fewer samples than its window asks for is
    inconclusive, rising estimates notwithstanding; the seed is not a
    sample. *)
Example probe_short_inconclusive :
  let '(signal, capacity, r', _) :=
    ProbeClusterDone (Run.goal 2000000) Run.probe_short in
  signal = ProbeSignalInconclusive
  /\ capacity = 500000
  /\ committedChannelCapacity r' = 500000.
Proof. vm_compute. repeat split. Qed.

(** A probe that turned congested reports congesting. *)
Example probe_congesting :
  let '(signal, capacity, r', _) :=
    ProbeClusterDone (Run.goal 2000000) Run.probe_congested in
  signal = ProbeSignalCongesting
  /\ capacity = 100000000
  /\ congestionState r' = CongestionStateNone.
Proof. vm_compute. repeat split. Qed.


(** * Further properties of the controller *)

Section Further.

Context {ChannelObserverConfig CO : Type}.
Context `{ops : ChannelObserverOps ChannelObserverConfig CO}.

Local Abbreviation Receiver := (RemoteBWE ChannelObserverConfig CO).

Implicit Types (r : Receiver) (clk : Clock)
  (reason : channelCongestionReason) (trend : channelTrend).

(** ** What an evaluation of the state machine leaves behind *)

Ltac sm_settle Hs Hp :=
  cbn; unfold notify_worthy; cbn; rewrite ?Hs, ?Hp; cbn;
  repeat split; try reflexivity; try assumption; try lia.

Lemma sm_effects clk r trend reason :
  GetTrend (channelObserver r) = (trend, reason) ->
  let '(n, _, _, r', evs) := congestionDetectionStateMachine clk r in
  (params r' = params r
   /\ lastReceivedEstimate r' = lastReceivedEstimate r
   /\ lastExpectedBandwidthUsage r' = lastExpectedBandwidthUsage r)
  /\ allowed_transition (congestionState r) (congestionState r') = true
  /\ congestionStateSwitchedAt r' =
       (if n then mono_Now clk else congestionStateSwitchedAt r)
  /\ commit_attempts evs =
       (if channelTrend_eqb trend channelTrendCongesting
           && negb (CongestionState_eqb (congestionState r)
                      CongestionStateNone
                    && isInProbe r)
        then 1%nat else 0%nat)
  /\ (if commit_applied evs
      then commit_attempts evs = 1%nat
           /\ congestionState r' = CongestionStateCongested
           /\ committedChannelCapacity r' = estimateToCommit reason r
           /\ committedChannelCapacity r' <= lastReceivedEstimate r
           /\ committedChannelCapacity r' <= commitThreshold r
           /\ channelObserver r' =
                (if isInProbe r then probeObserver r'
                 else nonProbeObserver r')
      else committedChannelCapacity r' = committedChannelCapacity r
           /\ channelObserver r' = channelObserver r).
Proof.
  intros Ht.
  pose proof (estimateToCommit_le reason r) as Hle.
  destruct (channelTrend_eqb_spec trend channelTrendCongesting)
    as [-> | Hne].
  - destruct (congestionState r) eqn:Hs.
    + destruct (isInProbe r) eqn:Hp.
      * rewrite (sm_none_congesting_in_probe clk r reason Hs Ht Hp).
        sm_settle Hs Hp.
      * rewrite (sm_none_congesting clk r reason Hs Ht Hp).
        destruct (Z.gtb_spec (estimateToCommit reason r)
                    (commitThreshold r)); sm_settle Hs Hp.
    + rewrite (sm_congested_congesting clk r reason Hs Ht).
      destruct (Z.gtb_spec (estimateToCommit reason r)
                  (commitThreshold r)); sm_settle Hs Hs.
    + rewrite (sm_hangover_congesting clk r reason Hs Ht).
      destruct (Z.gtb_spec (estimateToCommit reason r)
                  (commitThreshold r)); sm_settle Hs Hs.
  - assert (Hn : fst (GetTrend (channelObserver r))
                 <> channelTrendCongesting) by now rewrite Ht.
    destruct (congestionState r) eqn:Hs.
    + rewrite (sm_none_idle clk r Hs Hn). sm_settle Hs Hs.
    + rewrite (sm_congested_easing clk r Hs Hn). sm_settle Hs Hs.
    + rewrite (sm_hangover_easing clk r Hs Hn).
      destruct (time_Since clk (congestionStateSwitchedAt r)
                  >=? CongestedMinDuration (config r)); sm_settle Hs Hs.
Qed.

(** ** What a call of the feedback handler leaves behind *)

Lemma allowed_transition_refl (a : CongestionState) :
  allowed_transition a a = true.
Proof. now destruct a. Qed.

Lemma tail_not_commit (n : bool) (l : option BWEListener)
    (st : CongestionState) (c : Z) (evs : list Event) :
  let tail := if n
              then match l with
                   | Some l' => [OnCongestionStateChange l' st c]
                   | None => []
                   end
              else [] in
  commit_applied (evs ++ tail) = commit_applied evs
  /\ commit_attempts (evs ++ tail) = commit_attempts evs.
Proof.
  cbv zeta. rewrite commit_applied_app, commit_attempts_app.
  destruct n; [destruct l|]; cbn; rewrite orb_false_r, Nat.add_0_r; tauto.
Qed.

Lemma HandleREMB_effects clk est usage sent nacks r :
  let q := sampled est usage sent nacks r in
  let '(_, r', evs) := HandleREMB clk est usage sent nacks r in
  (lastReceivedEstimate r' = est
   /\ lastExpectedBandwidthUsage r' = usage
   /\ params r' = params r
   /\ isInProbe r' = isInProbe r
   /\ bweListener r' = bweListener r)
  /\ allowed_transition (congestionState r) (congestionState r') = true
  /\ congestionStateSwitchedAt r' =
       (if notify_worthy r r' evs then mono_Now clk
        else congestionStateSwitchedAt r)
  /\ commit_attempts evs =
       (if negb (frozen r) && negb (isInProbe r)
           && channelTrend_eqb (trendAfter est usage sent nacks r)
                channelTrendCongesting
        then 1%nat else 0%nat)
  /\ (if commit_applied evs
      then isInProbe r = false
           /\ congestionState r' = CongestionStateCongested
           /\ committedChannelCapacity r' =
                estimateToCommit (snd (GetTrend (channelObserver q))) q
           /\ committedChannelCapacity r' <= est
           /\ committedChannelCapacity r' <= commitThreshold q
           /\ channelObserver r' = nonProbeObserver r'
      else committedChannelCapacity r' = committedChannelCapacity r
           /\ channelObserver r' =
                (if frozen r then channelObserver r
                 else channelObserver q)).
Proof.
  cbv zeta. destruct (frozen r) eqn:Hf.
  - rewrite HandleREMB_frozen by exact Hf.
    unfold notify_worthy. cbn.
    rewrite CongestionState_eqb_refl, allowed_transition_refl.
    rewrite andb_false_r. cbn. repeat split.
  - rewrite HandleREMB_live by exact Hf.
    unfold trendAfter.
    set (q := sampled est usage sent nacks r).
    destruct (GetTrend (channelObserver q)) as [trend reason] eqn:Ht.
    pose proof (sm_effects clk q trend reason Ht) as HE.
    pose proof (sm_summary clk q) as HS.
    destruct (congestionDetectionStateMachine clk q)
      as [[[[n st] c] r1] evs].
    destruct HS as (-> & -> & Hl & Hp & _ & Hn).
    destruct HE as ((Hpa & Hlr & Hu) & Hal & Hsw & Hat & Hca).
    change (notify_worthy q r1 evs) with (notify_worthy r r1 evs) in Hn.
    destruct (tail_not_commit n (bweListener r1) (congestionState r1)
                (committedChannelCapacity r1) evs) as [Ta Tb].
    cbv zeta in Ta, Tb.
    assert (Hnw : notify_worthy r r1
                    (evs ++
                     (if n
                      then match bweListener r1 with
                           | Some l =>
                               [OnCongestionStateChange l
                                  (congestionState r1)
                                  (committedChannelCapacity r1)]
                           | None => []
                           end
                      else [])) = n).
    { unfold notify_worthy in *. rewrite Ta. now symmetry. }
    rewrite Hnw, Ta, Tb. cbn [fst snd].
    change (isInProbe q) with (isInProbe r) in *.
    change (congestionState q) with (congestionState r) in *.
    change (lastReceivedEstimate q) with est in *.
    change (lastExpectedBandwidthUsage q) with usage in *.
    change (params q) with (params r) in *.
    change (bweListener q) with (bweListener r) in *.
    change (congestionStateSwitchedAt q)
      with (congestionStateSwitchedAt r) in *.
    change (committedChannelCapacity q)
      with (committedChannelCapacity r) in *.
    assert (Hfz : isInProbe r = true ->
                  congestionState r = CongestionStateNone).
    { intros Hip. unfold frozen in Hf. rewrite Hip in Hf. cbn in Hf.
      apply negb_false_iff in Hf.
      now destruct (CongestionState_eqb_spec (congestionState r)
                      CongestionStateNone). }
    assert (Hat' : commit_attempts evs =
                   (if negb (isInProbe r)
                       && channelTrend_eqb trend channelTrendCongesting
                    then 1%nat else 0%nat)).
    { rewrite Hat. destruct (isInProbe r) eqn:Hip.
      - rewrite (Hfz eq_refl). cbn. now rewrite andb_false_r.
      - rewrite andb_false_r. cbn. now rewrite andb_true_r. }
    repeat split; try assumption.
    destruct (commit_applied evs).
    + destruct Hca as (H1 & H2 & H3 & H4 & H5 & H6).
      assert (Hip : isInProbe r = false).
      { destruct (isInProbe r); [|reflexivity].
        rewrite Hat' in H1. discriminate. }
      rewrite Hip in H6. repeat split; assumption.
    + exact Hca.
Qed.

(** Every call of the feedback handler, frozen or not, records the received
    estimate and the expected usage, and none changes the configuration,
    the probe flag or the registered listener. *)
Theorem HandleREMB_records_inputs clk est usage sent nacks r :
  let '(_, r', _) := HandleREMB clk est usage sent nacks r in
  lastReceivedEstimate r' = est
  /\ lastExpectedBandwidthUsage r' = usage
  /\ params r' = params r
  /\ isInProbe r' = isInProbe r
  /\ bweListener r' = bweListener r.
Proof.
  pose proof (HandleREMB_effects clk est usage sent nacks r) as H.
  cbv zeta in H.
  destruct (HandleREMB clk est usage sent nacks r) as [[u r'] evs].
  apply H.
Qed.

(** A call of the feedback handler moves the congestion state along the
    branches of the state machine only: from none it stays or becomes
    congested, never hangover; from congested it stays or becomes hangover,
    never none. *)
Theorem HandleREMB_transition_allowed clk est usage sent nacks r :
  let '(_, r', _) := HandleREMB clk est usage sent nacks r in
  (congestionState r = CongestionStateNone ->
   congestionState r' = CongestionStateNone
   \/ congestionState r' = CongestionStateCongested)
  /\ (congestionState r = CongestionStateCongested ->
      congestionState r' = CongestionStateCongested
      \/ congestionState r' = CongestionStateCongestedHangover).
Proof.
  pose proof (HandleREMB_effects clk est usage sent nacks r) as H.
  cbv zeta in H.
  destruct (HandleREMB clk est usage sent nacks r) as [[u r'] evs].
  destruct H as (_ & Hal & _).
  split; intros Hs; rewrite Hs in Hal;
    destruct (congestionState r'); try discriminate; tauto.
Qed.

(** The time of the last switch becomes the current time exactly on the
    calls the listener is to hear of: a change of state, or a commit applied
    while congested. On every other call it is left as it was; a rejected
    commit does not re-arm it. *)
Theorem HandleREMB_switch_time clk est usage sent nacks r :
  let '(_, r', evs) := HandleREMB clk est usage sent nacks r in
  congestionStateSwitchedAt r' =
    (if notify_worthy r r' evs then mono_Now clk
     else congestionStateSwitchedAt r).
Proof.
  pose proof (HandleREMB_effects clk est usage sent nacks r) as H.
  cbv zeta in H.
  destruct (HandleREMB clk est usage sent nacks r) as [[u r'] evs].
  apply H.
Qed.

(** A call of the feedback handler attempts at most one commit, and it
    attempts one exactly when the call is not frozen, no probe is in flight
    and the trend read after the sample is congesting. *)
Theorem HandleREMB_commit_attempts clk est usage sent nacks r :
  let '(_, _, evs) := HandleREMB clk est usage sent nacks r in
  commit_attempts evs =
    (if negb (frozen r) && negb (isInProbe r)
        && channelTrend_eqb (trendAfter est usage sent nacks r)
             channelTrendCongesting
     then 1%nat else 0%nat).
Proof.
  pose proof (HandleREMB_effects clk est usage sent nacks r) as H.
  cbv zeta in H.
  destruct (HandleREMB clk est usage sent nacks r) as [[u r'] evs].
  apply H.
Qed.

(** The feedback handler changes the committed capacity only by applying
    a commit. When it applies one, no probe is in flight, the state it
    leaves is congested, and the new capacity is at most the estimate just
    received and at most the commit threshold of the usage just received. *)
Theorem HandleREMB_capacity clk est usage sent nacks r :
  let '(_, r', evs) := HandleREMB clk est usage sent nacks r in
  if commit_applied evs
  then isInProbe r = false
       /\ congestionState r' = CongestionStateCongested
       /\ committedChannelCapacity r' <= est
       /\ committedChannelCapacity r'
          <= commitThreshold (recorded est usage r)
  else committedChannelCapacity r' = committedChannelCapacity r.
Proof.
  pose proof (HandleREMB_effects clk est usage sent nacks r) as H.
  cbv zeta in H.
  destruct (HandleREMB clk est usage sent nacks r) as [[u r'] evs].
  destruct H as (_ & _ & _ & _ & H).
  destruct (commit_applied evs); [|apply H].
  destruct H as (H1 & H2 & _ & H4 & H5 & _). repeat split; assumption.
Qed.

(** The observer after a call of the feedback handler: untouched when the
    call is frozen, a fresh non-probe observer when a commit was applied,
    and otherwise the observer before with the estimate and then the nack
    counts of the call added. *)
Theorem HandleREMB_observer clk est usage sent nacks r :
  let '(_, r', evs) := HandleREMB clk est usage sent nacks r in
  channelObserver r' =
    if frozen r then channelObserver r
    else if commit_applied evs then nonProbeObserver r'
    else AddNack sent nacks (AddEstimate est (channelObserver r)).
Proof.
  pose proof (HandleREMB_effects clk est usage sent nacks r) as H.
  cbv zeta in H.
  destruct (HandleREMB clk est usage sent nacks r) as [[u r'] evs].
  destruct H as (_ & _ & _ & Hat & H).
  destruct (frozen r) eqn:Hf.
  - cbn in Hat. destruct (commit_applied evs); [|apply H].
    destruct H as (Hp & _). unfold frozen in Hf. rewrite Hp in Hf.
    discriminate.
  - destruct (commit_applied evs); apply H.
Qed.

(** With a bandwidth-estimate reason the candidate is the last received
    estimate itself: the commit is accepted exactly when that estimate is at
    most the commit threshold, and then commits exactly that estimate. *)
Theorem commit_on_estimate_reason r :
  let '(ok, r', _) :=
    estimateAvailableChannelCapacity channelCongestionReasonEstimate r in
  (ok = true <-> lastReceivedEstimate r <= commitThreshold r)
  /\ (ok = true -> committedChannelCapacity r' = lastReceivedEstimate r).
Proof.
  rewrite estimateAvailableChannelCapacity_run.
  assert (E : estimateToCommit channelCongestionReasonEstimate r
              = lastReceivedEstimate r).
  { unfold estimateToCommit, rawEstimateToCommit.
    now rewrite Z.gtb_ltb, Z.ltb_irrefl. }
  rewrite E.
  destruct (Z.gtb_spec (lastReceivedEstimate r) (commitThreshold r)).
  - split; [split; [discriminate | lia] | discriminate].
  - split; [split; [lia | reflexivity] | intros _; cbn; exact E].
Qed.

(** ** Sequences of calls *)

Lemma frozen_call (c : ProbeCall) r :
  frozen r = true ->
  let '(_, r', evs) := call c r in
  frozen r' = true
  /\ congestionState r' = congestionState r
  /\ committedChannelCapacity r' = committedChannelCapacity r
  /\ congestionStateSwitchedAt r' = congestionStateSwitchedAt r
  /\ notifications evs = []
  /\ (is_feedback c = true ->
      channelObserver r' = channelObserver r /\ evs = []).
Proof.
  intros Hf.
  assert (Hp : isInProbe r = true)
    by (unfold frozen in Hf; now destruct (isInProbe r)).
  destruct c as [clk e u s n | pci | l]; cbn [call is_feedback].
  - rewrite HandleREMB_frozen by exact Hf. cbn. repeat split. exact Hf.
  - rewrite ProbeClusterStarting_run. cbn. unfold frozen in *. cbn.
    rewrite Hp in Hf. repeat split; try assumption; discriminate.
  - cbn. repeat split; try assumption; discriminate.
Qed.

Lemma frozen_calls (cs : list ProbeCall) r :
  frozen r = true ->
  let '(_, r', evs) := calls cs r in
  frozen r' = true
  /\ congestionState r' = congestionState r
  /\ committedChannelCapacity r' = committedChannelCapacity r
  /\ congestionStateSwitchedAt r' = congestionStateSwitchedAt r
  /\ notifications evs = []
  /\ (forallb is_feedback cs = true ->
      channelObserver r' = channelObserver r /\ evs = []).
Proof.
  revert r. induction cs as [| c cs IH]; intros r Hf.
  - cbn. repeat split. exact Hf.
  - cbn [calls forallb]. unfold bind.
    pose proof (frozen_call c r Hf) as Hc.
    destruct (call c r) as [[u r1] e1].
    destruct Hc as (Hf1 & Hs1 & Hc1 & Ht1 & Hn1 & Ho1).
    specialize (IH r1 Hf1).
    destruct (calls cs r1) as [[u2 r2] e2].
    destruct IH as (Hf2 & Hs2 & Hc2 & Ht2 & Hn2 & Ho2).
    rewrite notifications_app, Hn1, Hn2.
    repeat match goal with |- _ /\ _ => split end; try congruence;
      try reflexivity.
    intros Hb. apply andb_true_iff in Hb as [Hb1 Hb2].
    destruct (Ho1 Hb1) as [E1 ->]. destruct (Ho2 Hb2) as [E2 ->].
    split; [congruence | reflexivity].
Qed.

(** A probe started while the state is not none cannot succeed. Whatever
    calls follow, the state, the committed capacity and the time of the last
    switch stay what they were and the listener hears nothing; feedback
    alone leaves the probe observer as seeded; and [ProbeClusterDone] reports
    congesting with the capacity the probe started with. *)
Theorem probe_on_congestion_reports_congesting
    (cs : list ProbeCall) (pci pci' : ProbeClusterInfo) r :
  congestionState r <> CongestionStateNone ->
  let '(_, r0, _) := ProbeClusterStarting pci r in
  let '(_, r1, evs) := calls cs r0 in
  let '(signal, capacity, r2, _) := ProbeClusterDone pci' r1 in
  congestionState r1 = congestionState r
  /\ congestionStateSwitchedAt r1 = congestionStateSwitchedAt r
  /\ notifications evs = []
  /\ (forallb is_feedback cs = true ->
      channelObserver r1 = probeObserver r)
  /\ signal = ProbeSignalCongesting
  /\ capacity = committedChannelCapacity r
  /\ committedChannelCapacity r2 = committedChannelCapacity r.
Proof.
  intros Hs. rewrite ProbeClusterStarting_run.
  set (r0 := set_channelObserver _ _).
  assert (Hf : frozen r0 = true).
  { unfold frozen. cbn. now apply CongestionState_eqb_neq in Hs as ->. }
  pose proof (frozen_calls cs r0 Hf) as H.
  destruct (calls cs r0) as [[u r1] evs].
  destruct H as (Hf1 & Hs1 & Hc1 & Ht1 & Hn1 & Ho1).
  rewrite ProbeClusterDone_run. cbv zeta.
  rewrite Hs1. change (congestionState r0) with (congestionState r).
  apply CongestionState_eqb_neq in Hs. rewrite Hs. cbn.
  repeat split; try assumption.
  intros Hb. now destruct (Ho1 Hb).
Qed.

Lemma call_state_in_probe (c : ProbeCall) r :
  isInProbe r = true ->
  let '(_, r', _) := call c r in
  congestionState r' = congestionState r
  \/ (congestionState r = CongestionStateNone
      /\ congestionState r' = CongestionStateCongested).
Proof.
  intros Hp. destruct c as [clk e u s n | pci | l]; cbn [call].
  - destruct (frozen r) eqn:Hf.
    + rewrite HandleREMB_frozen by exact Hf. now left.
    + assert (Hs : congestionState r = CongestionStateNone).
      { unfold frozen in Hf. rewrite Hp in Hf. cbn in Hf.
        apply negb_false_iff in Hf.
        now destruct (CongestionState_eqb_spec (congestionState r)
                        CongestionStateNone). }
      pose proof (HandleREMB_effects clk e u s n r) as H. cbv zeta in H.
      destruct (HandleREMB clk e u s n r) as [[x r'] evs].
      destruct H as (_ & Hal & _).
      rewrite Hs in *.
      destruct (congestionState r'); try discriminate; tauto.
  - rewrite ProbeClusterStarting_run. now left.
  - now left.
Qed.

(** While a probe is in flight the congestion state moves at most once,
    from none to congested: over any sequence of calls it is what it was, or
    it was none and is now congested. A probe never enters the hangover and
    never returns to none before [ProbeClusterDone]. *)
Theorem probe_state_moves_once (cs : list ProbeCall) r :
  isInProbe r = true ->
  let '(_, r', _) := calls cs r in
  congestionState r' = congestionState r
  \/ (congestionState r = CongestionStateNone
      /\ congestionState r' = CongestionStateCongested).
Proof.
  revert r. induction cs as [| c cs IH]; intros r Hp.
  - now left.
  - cbn [calls]. unfold bind.
    pose proof (call_state_in_probe c r Hp) as Hc.
    pose proof (call_in_probe c r Hp) as Hq.
    destruct (call c r) as [[u r1] e1]. destruct Hq as (Hp1 & _).
    specialize (IH r1 Hp1).
    destruct (calls cs r1) as [[u2 r2] e2].
    destruct Hc as [Hc | [Hc1 Hc2]]; destruct IH as [IH | [IH1 IH2]].
    + left. congruence.
    + right. split; congruence.
    + right. split; congruence.
    + congruence.
Qed.



(** ** The probe lifecycle and [Reset] *)

(** [ProbeClusterDone] resets the congestion state behind the listener's
    back: it never notifies, even when it takes the state from congested or
    hangover to none, and it leaves the time of the last switch, the last
    received estimate, the expected usage, the configuration and the
    listener as they were. *)
Theorem ProbeClusterDone_silent pci r :
  let '(_, r', evs) := ProbeClusterDone pci r in
  notifications evs = []
  /\ congestionStateSwitchedAt r' = congestionStateSwitchedAt r
  /\ lastReceivedEstimate r' = lastReceivedEstimate r
  /\ lastExpectedBandwidthUsage r' = lastExpectedBandwidthUsage r
  /\ params r' = params r
  /\ bweListener r' = bweListener r.
Proof.
  rewrite ProbeClusterDone_run. cbv zeta.
  destruct (negb (CongestionState_eqb (congestionState r)
                    CongestionStateNone)); [cbn; tauto|].
  destruct (negb (HasEnoughEstimateSamples (channelObserver r))
            || channelTrend_eqb (fst (GetTrend (channelObserver r)))
                 channelTrendNeutral); [cbn; tauto|].
  destruct (GetHighestEstimate (channelObserver r)
              >? committedChannelCapacity r); cbn; tauto.
Qed.

(** [Reset] forgets everything but the configuration and the listener: two
    receivers that agree on these are reset to the same receiver, whatever
    their estimates, probe, observer and state were. It keeps both and
    emits nothing. *)
Theorem Reset_forgets clk (r1 r2 : Receiver) :
  params r1 = params r2 ->
  bweListener r1 = bweListener r2 ->
  Reset clk r1 = Reset clk r2
  /\ params (snd (fst (Reset clk r1))) = params r1
  /\ bweListener (snd (fst (Reset clk r1))) = bweListener r1
  /\ snd (Reset clk r1) = [].
Proof.
  intros Hp Hl. rewrite !Reset_run. cbn.
  unfold nonProbeObserver, config. rewrite Hp, Hl. repeat split.
Qed.

(** A probe start overrides an earlier one: after two starts in a row the
    receiver is what the second one alone gives. The first start keeps the
    committed capacity, the state and the last received estimate, sets the
    expected usage to its goal and seeds the probe observer with the
    committed capacity. *)
Theorem ProbeClusterStarting_absorbs (pci1 pci2 : ProbeClusterInfo) r :
  let '(_, r1, _) := ProbeClusterStarting pci1 r in
  ProbeClusterStarting pci2 r1 = ProbeClusterStarting pci2 r
  /\ isInProbe r1 = true
  /\ lastExpectedBandwidthUsage r1 = ExpectedUsageBps (Goal pci1)
  /\ channelObserver r1 = probeObserver r
  /\ committedChannelCapacity r1 = committedChannelCapacity r
  /\ congestionState r1 = congestionState r
  /\ lastReceivedEstimate r1 = lastReceivedEstimate r.
Proof.
  rewrite !ProbeClusterStarting_run. cbn. repeat split.
Qed.

(** The hangover lasts: when an evaluation takes the state from congested
    to hangover, the next evaluation on the same observer makes it none
    exactly when [CongestedMinDuration] has elapsed since the first one,
    and leaves it in hangover otherwise. *)
Theorem hangover_lasts (clk1 clk2 : Clock) r :
  congestionState r = CongestionStateCongested ->
  fst (GetTrend (channelObserver r)) <> channelTrendCongesting ->
  let '(_, r1, _) := congestionDetectionStateMachine clk1 r in
  let '(_, r2, _) := congestionDetectionStateMachine clk2 r1 in
  congestionState r1 = CongestionStateCongestedHangover
  /\ congestionStateSwitchedAt r1 = mono_Now clk1
  /\ (congestionState r2 = CongestionStateNone <->
      CongestedMinDuration (config r)
        <= time_Since clk2 (mono_Now clk1))
  /\ (congestionState r2 = CongestionStateNone
      \/ congestionState r2 = CongestionStateCongestedHangover).
Proof.
  intros Hs Ht. rewrite (sm_congested_easing clk1 r Hs Ht).
  set (r1 := switched clk1 CongestionStateCongestedHangover r).
  assert (Hs1 : congestionState r1 = CongestionStateCongestedHangover)
    by reflexivity.
  assert (Ht1 : fst (GetTrend (channelObserver r1))
                <> channelTrendCongesting) by exact Ht.
  rewrite (sm_hangover_easing clk2 r1 Hs1 Ht1).
  change (congestionStateSwitchedAt r1) with (mono_Now clk1).
  change (config r1) with (config r).
  destruct (Z.geb_spec (time_Since clk2 (mono_Now clk1))
              (CongestedMinDuration (config r))); cbn.
  - repeat split; try tauto; try lia.
  - repeat split; try tauto; [discriminate | lia].
Qed.

(** Notifications go to the listener registered last: after
    [SetBWEListener] every notification of the next feedback call is
    addressed to the listener just set, and with nil set there is none. *)
Theorem notifications_follow_listener (l : option BWEListener)
    clk est usage sent nacks r :
  let '(_, r1, _) := SetBWEListener l r in
  let '(_, r2, evs) := HandleREMB clk est usage sent nacks r1 in
  fst (fst (getBWEListener r2)) = l
  /\ match l with
     | Some l' =>
         forall e, In e (notifications evs) ->
                   exists st c, e = OnCongestionStateChange l' st c
     | None => notifications evs = []
     end.
Proof.
  change (SetBWEListener l r) with (tt, set_bweListener l r, @nil Event).
  cbv beta iota. set (r1 := set_bweListener l r).
  destruct (frozen r1) eqn:Hf.
  - rewrite HandleREMB_frozen by exact Hf. cbn.
    split; [reflexivity|]. destruct l; [intros e []|reflexivity].
  - rewrite HandleREMB_live by exact Hf.
    pose proof (sm_summary clk (sampled est usage sent nacks r1)) as HS.
    destruct (congestionDetectionStateMachine clk
                (sampled est usage sent nacks r1))
      as [[[[n st] c] r2] evs].
    destruct HS as (_ & _ & Hl & _ & Hn & _).
    change (bweListener (sampled est usage sent nacks r1)) with l in Hl.
    cbn. rewrite Hl, notifications_app, Hn. split; [reflexivity|].
    destruct l as [l'|]; destruct n; cbn; try reflexivity.
    + intros e [<- | []]. now exists st, c.
    + intros e [].
Qed.

(** ** When the state becomes congested, and when it leaves *)

Lemma sm_enters_congested clk r trend reason :
  GetTrend (channelObserver r) = (trend, reason) ->
  congestionState r <> CongestionStateCongested ->
  let '(_, r', evs) := congestionDetectionStateMachine clk r in
  congestionState r' = CongestionStateCongested <->
  trend = channelTrendCongesting
  /\ ((congestionState r = CongestionStateNone /\ isInProbe r = true)
      \/ commit_applied evs = true).
Proof.
  intros Ht Hnc.
  destruct (channelTrend_eqb_spec trend channelTrendCongesting)
    as [-> | Hne].
  - destruct (congestionState r) eqn:Hs; [| contradiction |].
    + destruct (isInProbe r) eqn:Hp.
      * rewrite (sm_none_congesting_in_probe clk r reason Hs Ht Hp).
        cbn. tauto.
      * rewrite (sm_none_congesting clk r reason Hs Ht Hp).
        destruct (estimateToCommit reason r >? commitThreshold r); cbn.
        -- rewrite Hs. split; [discriminate|].
           intros [_ [[_ H] | H]]; discriminate.
        -- tauto.
    + rewrite (sm_hangover_congesting clk r reason Hs Ht).
      destruct (estimateToCommit reason r >? commitThreshold r); cbn.
      * rewrite Hs. split; [discriminate|].
        intros [_ [[H _] | H]]; discriminate.
      * tauto.
  - assert (Hn : fst (GetTrend (channelObserver r))
                 <> channelTrendCongesting) by now rewrite Ht.
    destruct (congestionState r) eqn:Hs; [| contradiction |].
    + rewrite (sm_none_idle clk r Hs Hn). cbn. rewrite Hs.
      split; [discriminate | tauto].
    + rewrite (sm_hangover_easing clk r Hs Hn).
      destruct (time_Since clk (congestionStateSwitchedAt r)
                  >=? CongestedMinDuration (config r)); cbn;
        rewrite ?Hs; (split; [discriminate | tauto]).
Qed.

(** Congestion is declared only on a congesting trend. A call of the
    feedback handler takes a state other than congested to congested
    exactly when the call is not frozen, the trend read after the sample is
    congesting, and either a probe is in flight or a commit was applied. *)
Theorem HandleREMB_enters_congested clk est usage sent nacks r :
  congestionState r <> CongestionStateCongested ->
  let '(_, r', evs) := HandleREMB clk est usage sent nacks r in
  congestionState r' = CongestionStateCongested <->
  frozen r = false
  /\ trendAfter est usage sent nacks r = channelTrendCongesting
  /\ (isInProbe r = true \/ commit_applied evs = true).
Proof.
  intros Hnc. destruct (frozen r) eqn:Hf.
  - rewrite HandleREMB_frozen by exact Hf. cbn.
    split; [contradiction | intros [H _]; discriminate].
  - rewrite HandleREMB_live by exact Hf. unfold trendAfter.
    set (q := sampled est usage sent nacks r).
    destruct (GetTrend (channelObserver q)) as [trend reason] eqn:Ht.
    pose proof (sm_enters_congested clk q trend reason Ht Hnc) as HE.
    destruct (congestionDetectionStateMachine clk q)
      as [[[[n st] c] r1] evs].
    destruct (tail_not_commit n (bweListener r1) st c evs) as [Ta _].
    cbv zeta in Ta. rewrite Ta. cbn [fst].
    change (isInProbe q) with (isInProbe r) in HE.
    change (congestionState q) with (congestionState r) in HE.
    rewrite HE. clear HE Ta.
    assert (Hfz : isInProbe r = true ->
                  congestionState r = CongestionStateNone).
    { intros Hip. unfold frozen in Hf. rewrite Hip in Hf. cbn in Hf.
      apply negb_false_iff in Hf.
      now destruct (CongestionState_eqb_spec (congestionState r)
                      CongestionStateNone). }
    tauto.
Qed.

(** The state leaves congested only for the hangover, and exactly when a
    call that is not frozen reads a trend that is not congesting; on every
    other call it stays congested. *)
Theorem HandleREMB_leaves_congested clk est usage sent nacks r :
  congestionState r = CongestionStateCongested ->
  let '(_, r', _) := HandleREMB clk est usage sent nacks r in
  (congestionState r' = CongestionStateCongestedHangover <->
   frozen r = false
   /\ trendAfter est usage sent nacks r <> channelTrendCongesting)
  /\ (congestionState r' = CongestionStateCongestedHangover
      \/ congestionState r' = CongestionStateCongested).
Proof.
  intros Hs. destruct (frozen r) eqn:Hf.
  - rewrite HandleREMB_frozen by exact Hf. cbn. rewrite Hs.
    split; [split; [discriminate | intros [H _]; discriminate] | tauto].
  - rewrite HandleREMB_live by exact Hf. unfold trendAfter.
    set (q := sampled est usage sent nacks r).
    assert (Hsq : congestionState q = CongestionStateCongested)
      by exact Hs.
    destruct (GetTrend (channelObserver q)) as [trend reason] eqn:Ht.
    destruct (channelTrend_eqb_spec trend channelTrendCongesting)
      as [-> | Hne].
    + rewrite (sm_congested_congesting clk q reason Hsq Ht).
      destruct (estimateToCommit reason q >? commitThreshold q); cbn;
        rewrite ?Hs; (split; [split; [discriminate | tauto] | tauto]).
    + rewrite (sm_congested_easing clk q Hsq)
        by (rewrite Ht; exact Hne).
      cbn. tauto.
Qed.

End Further.

(** ** Runs of the further properties *)

(** [probe_on_congestion_reports_congesting] on a probe started on the
    congested receiver [Run.congested]. *)
Lemma probe_on_congestion_reports_congesting_witness :
  let '(_, r0, _) := ProbeClusterStarting (Run.goal 2000000) Run.congested in
  let '(_, r1, evs) := calls Run.probe_feedback r0 in
  let '(signal, capacity, r2, _) :=
    ProbeClusterDone (Run.goal 2000000) r1 in
  congestionState r1 = congestionState Run.congested
  /\ congestionStateSwitchedAt r1 = congestionStateSwitchedAt Run.congested
  /\ notifications evs = []
  /\ (forallb is_feedback Run.probe_feedback = true ->
      channelObserver r1 = probeObserver Run.congested)
  /\ signal = ProbeSignalCongesting
  /\ capacity = committedChannelCapacity Run.congested
  /\ committedChannelCapacity r2 = committedChannelCapacity Run.congested.
Proof.
  apply (probe_on_congestion_reports_congesting Run.probe_feedback
           (Run.goal 2000000) (Run.goal 2000000) Run.congested).
  vm_compute. discriminate.
Defined.

(** [probe_state_moves_once] on the probe of [Run.probing]. *)
Lemma probe_state_moves_once_witness :
  let '(_, r', _) := calls Run.probe_feedback Run.probing in
  congestionState r' = congestionState Run.probing
  \/ (congestionState Run.probing = CongestionStateNone
      /\ congestionState r' = CongestionStateCongested).
Proof.
  apply (probe_state_moves_once Run.probe_feedback Run.probing).
  vm_compute. reflexivity.
Defined.


(** [Reset_forgets] on a congested receiver and a congested probe. *)
Lemma Reset_forgets_witness :
  Reset (Run.clock 50) Run.congested
    = Reset (Run.clock 50) Run.probe_congested
  /\ params (snd (fst (Reset (Run.clock 50) Run.congested)))
     = params Run.congested
  /\ bweListener (snd (fst (Reset (Run.clock 50) Run.congested)))
     = bweListener Run.congested
  /\ snd (Reset (Run.clock 50) Run.congested) = [].
Proof.
  apply (Reset_forgets (Run.clock 50) Run.congested Run.probe_congested);
    vm_compute; reflexivity.
Defined.

(** [hangover_lasts] on [Run.congested]: hangover at time 30, still
    hangover a second later. *)
Lemma hangover_lasts_witness :
  let '(_, r1, _) :=
    congestionDetectionStateMachine (Run.clock 30) Run.congested in
  let '(_, r2, _) :=
    congestionDetectionStateMachine (Run.clock (30 + Second)) r1 in
  congestionState r1 = CongestionStateCongestedHangover
  /\ congestionStateSwitchedAt r1 = mono_Now (Run.clock 30)
  /\ (congestionState r2 = CongestionStateNone <->
      CongestedMinDuration (config Run.congested)
        <= time_Since (Run.clock (30 + Second)) (mono_Now (Run.clock 30)))
  /\ (congestionState r2 = CongestionStateNone
      \/ congestionState r2 = CongestionStateCongestedHangover).
Proof.
  apply (hangover_lasts (Run.clock 30) (Run.clock (30 + Second))
           Run.congested).
  - vm_compute. reflexivity.
  - vm_compute. discriminate.
Defined.

(** [HandleREMB_enters_congested] on the feedback that completes the
    falling window of [Run.primed]. *)
Lemma HandleREMB_enters_congested_witness :
  let '(_, r', evs) :=
    HandleREMB (Run.clock 20) 500000 1000000 100 0 Run.primed in
  congestionState r' = CongestionStateCongested <->
  frozen Run.primed = false
  /\ trendAfter 500000 1000000 100 0 Run.primed = channelTrendCongesting
  /\ (isInProbe Run.primed = true \/ commit_applied evs = true).
Proof.
  apply (HandleREMB_enters_congested (Run.clock 20) 500000 1000000 100 0
           Run.primed).
  vm_compute. discriminate.
Defined.

(** [HandleREMB_leaves_congested] on [Run.congested]. *)
Lemma HandleREMB_leaves_congested_witness :
  let '(_, r', _) :=
    HandleREMB (Run.clock 30) 500000 1000000 100 0 Run.congested in
  (congestionState r' = CongestionStateCongestedHangover <->
   frozen Run.congested = false
   /\ trendAfter 500000 1000000 100 0 Run.congested
      <> channelTrendCongesting)
  /\ (congestionState r' = CongestionStateCongestedHangover
      \/ congestionState r' = CongestionStateCongested).
Proof.
  apply (HandleREMB_leaves_congested (Run.clock 30) 500000 1000000 100 0
           Run.congested).
  vm_compute. reflexivity.
Defined.

(** [commit_rejected_iff_exceeds] on [Run.primed_sampled], whose threshold
    product is 950000. *)
Lemma commit_rejected_iff_exceeds_witness :
  fst (fst (estimateAvailableChannelCapacity channelCongestionReasonEstimate
              Run.primed_sampled)) = false
  <-> Float64.exceeds
        (estimateToCommit channelCongestionReasonEstimate Run.primed_sampled)
        (Float64.mul (ExpectedUsageThreshold (config Run.primed_sampled))
           (Float64.of_int (lastExpectedBandwidthUsage Run.primed_sampled))).
Proof.
  apply (commit_rejected_iff_exceeds channelCongestionReasonEstimate
           Run.primed_sampled 950000).
  - vm_compute. reflexivity.
  - vm_compute. reflexivity.
  - vm_compute. discriminate.
Defined.
